(** * SKiM980A board support: power-mode and clock sequencing

    A shallow embedding of [src/boards/SKiM980A/board.c].  The functions of
    board.c are written in a small monad that threads the board's global
    variables and the processor registers they touch, collects the calls made
    to the drivers and to the HAL as a trace of events, and makes explicit
    whether control comes back to the caller. *)

From Stdlib Require Import ZArith List Bool Arith Lia.
From ExtLib Require Import Structures.Monad.
Import ListNotations.
Import MonadNotation.
Local Open Scope monad_scope.
Local Open Scope Z_scope.

(** ** Names used by board.c *)

(** Pins of board-config.h that board.c names. *)
Inductive PinNames :=
| LED_1 | LED_2 | LED_3 | LED_4
| OSC_HSE_IN | OSC_HSE_OUT | OSC_LSE_IN | OSC_LSE_OUT
| USB_DM | USB_DP
| JTAG_TMS | JTAG_TCK | JTAG_TDI | JTAG_TDO | JTAG_NRST
| POTI | RADIO_MOSI | RADIO_MISO | RADIO_SCLK | NC
| UART_TX | UART_RX | PULSE | DIR | TAMPERING | ALARM.

Inductive PinModes := PIN_INPUT | PIN_OUTPUT | PIN_ALTERNATE_FCT | PIN_ANALOGIC.
Inductive PinConfigs := PIN_PUSH_PULL | PIN_OPEN_DRAIN.
Inductive PinTypes := PIN_NO_PULL | PIN_PULL_UP | PIN_PULL_DOWN.

(** The [Gpio_t] objects board.c passes to [GpioInit]: the four LED globals
    and the local [ioPin] of [BoardDeInitMcu] and [BoardUnusedIoInit]. *)
Inductive GpioObj := Led1 | Led2 | Led3 | Led4 | ioPin.

Inductive FifoObj := Uart1_FifoTx | Uart1_FifoRx.

(** [enum BoardPowerSources] of board.h. *)
Inductive BoardPowerSources := USB_POWER | BATTERY_POWER.

Definition BoardPowerSources_eqb (a b : BoardPowerSources) : bool :=
  match a, b with
  | USB_POWER, USB_POWER | BATTERY_POWER, BATTERY_POWER => true
  | _, _ => false
  end.

Inductive HAL_StatusTypeDef := HAL_OK | HAL_ERROR | HAL_BUSY | HAL_TIMEOUT.

Definition HAL_Status_eqb (a b : HAL_StatusTypeDef) : bool :=
  match a, b with
  | HAL_OK, HAL_OK | HAL_ERROR, HAL_ERROR
  | HAL_BUSY, HAL_BUSY | HAL_TIMEOUT, HAL_TIMEOUT => true
  | _, _ => false
  end.

(** The three HAL routines whose status [SystemClockConfig] tests. *)
Inductive HalRoutine :=
| Fn_HAL_RCC_OscConfig | Fn_HAL_RCC_ClockConfig | Fn_HAL_RCCEx_PeriphCLKConfig.

(** System clock sources (the SW and SWS fields of RCC_CFGR). *)
Inductive SysClk := CLK_MSI | CLK_HSI | CLK_HSE | CLK_PLL.

Definition SysClk_eqb (a b : SysClk) : bool :=
  match a, b with
  | CLK_MSI, CLK_MSI | CLK_HSI, CLK_HSI
  | CLK_HSE, CLK_HSE | CLK_PLL, CLK_PLL => true
  | _, _ => false
  end.

Inductive HseState := RCC_HSE_OFF | RCC_HSE_ON.
Inductive LseState := RCC_LSE_OFF | RCC_LSE_ON.
Inductive PllState := RCC_PLL_NONE | RCC_PLL_OFF | RCC_PLL_ON.
Inductive PllSource := RCC_PLLSOURCE_HSI | RCC_PLLSOURCE_HSE.
Inductive PllMul := RCC_PLL_MUL3 | RCC_PLL_MUL4 | RCC_PLL_MUL6 | RCC_PLL_MUL8.
Inductive PllDiv := RCC_PLL_DIV2 | RCC_PLL_DIV3 | RCC_PLL_DIV4.
Inductive VoltageScale :=
| PWR_REGULATOR_VOLTAGE_SCALE1 | PWR_REGULATOR_VOLTAGE_SCALE2
| PWR_REGULATOR_VOLTAGE_SCALE3.
Inductive Regulator := PWR_MAINREGULATOR_ON | PWR_LOWPOWERREGULATOR_ON.
Inductive LowPowerEntry := ENTRY_WFI | ENTRY_WFE.

(** What a busy-wait of board.c (or of the clock bring-up) waits for. *)
Inductive Condition :=
| PWR_FLAG_VOS_reset          (* regulator ready: the VOS flag reads RESET *)
| RCC_FLAG_HSERDY
| RCC_FLAG_LSERDY
| RCC_FLAG_PLLRDY
| SYSCLK_SOURCE_is (c : SysClk)  (* SWS reports [c] *)
| CalibrationTimerElapsed     (* the timer interrupt ran its callback *)
| WakeupEvent.                (* an interrupt ends WFI *)

(** ** Events

    One constructor per driver or HAL call and per register macro that
    board.c executes, with the arguments board.c passes. *)
Inductive Event :=
| E_HAL_Init
| E_GpioInit (obj : GpioObj) (pin : PinNames) (mode : PinModes)
             (config : PinConfigs) (type : PinTypes) (value : Z)
| E_GpioWrite (obj : GpioObj) (value : Z)
| E_FifoInit (fifo : FifoObj) (size : Z)
| E_UartInit
| E_UartConfig (baudrate : Z)
| E_RtcInit
| E_LpmSetOffMode_APPLI_DISABLE
| E_AdcInit (pin : PinNames)
| E_AdcDeInit
| E_SpiInit (mosi miso sclk nss : PinNames)
| E_SpiDeInit
| E_SX1272IoInit
| E_SX1272IoDeInit
| E_SX1272IoDbgInit
| E_SX1272IoTcxoInit
| E_EncoderInit
| E_TimerInit
| E_TimerSetValue (value : Z)
| E_TimerStart
| E_RtcSetMcuWakeUpTime
| E_WdtInit
| E_DBGMCU_DBGSleepMode (enable : bool)
| E_DBGMCU_DBGStopMode (enable : bool)
| E_DBGMCU_DBGStandbyMode (enable : bool)
| E_DBGMCU_FREEZE_WWDG (freeze : bool)
| E_DBGMCU_FREEZE_IWDG (freeze : bool)
| E_RCC_PWR_CLK_ENABLE
| E_PWR_VOLTAGESCALING_CONFIG (v : VoltageScale)
| E_RCC_HSE_CONFIG (st : HseState)
| E_RCC_LSE_CONFIG (st : LseState)
| E_RCC_PLL_CONFIG (src : PllSource) (mul : PllMul) (div : PllDiv)
| E_RCC_PLL_ENABLE
| E_RCC_SYSCLK_CONFIG (c : SysClk)
| E_RCC_BusDividers
| E_RCC_RTC_CONFIG_LSE
| E_HAL_Status (fn : HalRoutine) (st : HAL_StatusTypeDef)
| E_HAL_SYSTICK_Config (ticks : Z)
| E_HAL_SYSTICK_CLKSourceConfig_HCLK
| E_HAL_NVIC_SetPriority_SysTick
| E_HAL_PWR_DisablePVD
| E_SET_BIT_PWR_CR_CWUF
| E_HAL_PWREx_EnableUltraLowPower
| E_HAL_PWREx_EnableFastWakeUp
| E_HAL_PWR_EnterSTOPMode (r : Regulator) (e : LowPowerEntry)
| E_HAL_PWR_EnterSLEEPMode (r : Regulator) (e : LowPowerEntry)
| E_get_PRIMASK (v : Z)
| E_disable_irq
| E_set_PRIMASK (v : Z)
| E_NVIC_SystemReset
| E_printf_wrong_parameters (line : Z)
| E_Observed (c : Condition) (polls : nat).
   (* the busy-wait on [c] saw it hold, after [polls] reads that did not *)

(** ** Build configuration and hardware *)


(** The preprocessor conditions board.c branches on. *)
Record BuildConfig := {
  USE_POTENTIOMETER_is_0 : bool;    (* #if ( USE_POTENTIOMETER == 0 ) *)
  USE_ENCODER_is_1 : bool;          (* #if (USE_ENCODER == 1) *)
  USE_DEBUGGER : bool;              (* #if defined( USE_DEBUGGER ) *)
  USE_FULL_ASSERT : bool            (* #ifdef USE_FULL_ASSERT *)
}.

(** What the hardware answers.  [hw_polls n] resolves the [n]-th busy-wait
    executed since power-on: [Some k] when the awaited condition is seen
    after [k] reads that did not show it, [None] when it never is.
    [hw_status n] is the status of the [n]-th status-returning HAL call and
    [hw_hclk] the core clock frequency [HAL_RCC_GetHCLKFreq] reports. *)
Record Hardware := {
  hw_polls : nat -> option nat;
  hw_status : nat -> HAL_StatusTypeDef;
  hw_hclk : Z
}.

(** The clock tree as the RCC registers show it: the enable and selection
    bits the program writes and the ready and status bits as last read. *)
Record Clock := {
  HSEON : bool; HSERDY : bool;
  PLLON : bool; PLLRDY : bool;
  SW : SysClk; SWS : SysClk
}.

(** Clock tree after reset or after Stop mode: MSI, oscillators and PLL off. *)
Definition clock_default : Clock :=
  {| HSEON := false; HSERDY := false; PLLON := false; PLLRDY := false;
     SW := CLK_MSI; SWS := CLK_MSI |}.

(** [Running] of the data model: external oscillator and PLL on and ready,
    PLL selected and reported as the system clock. *)
Definition clock_running (c : Clock) : bool :=
  HSEON c && HSERDY c && PLLON c && PLLRDY c
  && SysClk_eqb (SW c) CLK_PLL && SysClk_eqb (SWS c) CLK_PLL.

(** The globals of board.c and the processor state it reads and writes. *)
Record State := {
  McuInitialized : bool;               (* static bool McuInitialized *)
  SystemWakeupTimeCalibrated : bool;   (* static volatile bool ... *)
  PRIMASK : bool;                      (* true: interrupts masked *)
  clock : Clock;
  waits : nat;                         (* busy-waits resolved so far *)
  calls : nat                          (* HAL statuses returned so far *)
}.

(** Values of the globals after reset (their initialisers in board.c). *)
Definition power_on (irq_masked : bool) : State :=
  {| McuInitialized := false; SystemWakeupTimeCalibrated := false;
     PRIMASK := irq_masked; clock := clock_default; waits := 0; calls := 0 |}.

Definition set_McuInitialized (b : bool) (s : State) : State :=
  {| McuInitialized := b;
     SystemWakeupTimeCalibrated := SystemWakeupTimeCalibrated s;
     PRIMASK := PRIMASK s; clock := clock s;
     waits := waits s; calls := calls s |}.

Definition set_SystemWakeupTimeCalibrated (b : bool) (s : State) : State :=
  {| McuInitialized := McuInitialized s;
     SystemWakeupTimeCalibrated := b;
     PRIMASK := PRIMASK s; clock := clock s;
     waits := waits s; calls := calls s |}.

Definition set_PRIMASK_bit (b : bool) (s : State) : State :=
  {| McuInitialized := McuInitialized s;
     SystemWakeupTimeCalibrated := SystemWakeupTimeCalibrated s;
     PRIMASK := b; clock := clock s;
     waits := waits s; calls := calls s |}.

Definition set_clock (c : Clock) (s : State) : State :=
  {| McuInitialized := McuInitialized s;
     SystemWakeupTimeCalibrated := SystemWakeupTimeCalibrated s;
     PRIMASK := PRIMASK s; clock := c;
     waits := waits s; calls := calls s |}.

Definition next_wait (s : State) : State :=
  {| McuInitialized := McuInitialized s;
     SystemWakeupTimeCalibrated := SystemWakeupTimeCalibrated s;
     PRIMASK := PRIMASK s; clock := clock s;
     waits := S (waits s); calls := calls s |}.

Definition next_call (s : State) : State :=
  {| McuInitialized := McuInitialized s;
     SystemWakeupTimeCalibrated := SystemWakeupTimeCalibrated s;
     PRIMASK := PRIMASK s; clock := clock s;
     waits := waits s; calls := S (calls s) |}.

Definition set_HSEON (b : bool) (c : Clock) : Clock :=
  {| HSEON := b; HSERDY := HSERDY c; PLLON := PLLON c; PLLRDY := PLLRDY c;
     SW := SW c; SWS := SWS c |}.
Definition set_HSERDY (b : bool) (c : Clock) : Clock :=
  {| HSEON := HSEON c; HSERDY := b; PLLON := PLLON c; PLLRDY := PLLRDY c;
     SW := SW c; SWS := SWS c |}.
Definition set_PLLON (b : bool) (c : Clock) : Clock :=
  {| HSEON := HSEON c; HSERDY := HSERDY c; PLLON := b; PLLRDY := PLLRDY c;
     SW := SW c; SWS := SWS c |}.
Definition set_PLLRDY (b : bool) (c : Clock) : Clock :=
  {| HSEON := HSEON c; HSERDY := HSERDY c; PLLON := PLLON c; PLLRDY := b;
     SW := SW c; SWS := SWS c |}.
Definition set_SW (k : SysClk) (c : Clock) : Clock :=
  {| HSEON := HSEON c; HSERDY := HSERDY c; PLLON := PLLON c;
     PLLRDY := PLLRDY c; SW := k; SWS := SWS c |}.
Definition set_SWS (k : SysClk) (c : Clock) : Clock :=
  {| HSEON := HSEON c; HSERDY := HSERDY c; PLLON := PLLON c;
     PLLRDY := PLLRDY c; SW := SW c; SWS := k |}.

(** ** The monad

    A board function either returns a value in a new state, or control
    never comes back to its caller (an endless loop, a reset).  Both
    outcomes carry the events executed. *)
Inductive Result (A : Type) :=
| Returns (a : A) (s : State) (t : list Event)
| NoReturn (s : State) (t : list Event).
Arguments Returns {A} a s t.
Arguments NoReturn {A} s t.

Definition M (A : Type) : Type := State -> Result A.

Definition trace_of {A} (r : Result A) : list Event :=
  match r with Returns _ _ t | NoReturn _ t => t end.

Definition final {A} (r : Result A) : State :=
  match r with Returns _ s _ | NoReturn s _ => s end.

Definition returns {A} (r : Result A) : bool :=
  match r with Returns _ _ _ => true | NoReturn _ _ => false end.

Definition M_ret {A} (a : A) : M A := fun s => Returns a s [].

(** [r] with the events [t] executed before it. *)
Definition after {A} (t : list Event) (r : Result A) : Result A :=
  match r with
  | Returns a s t' => Returns a s (t ++ t')
  | NoReturn s t' => NoReturn s (t ++ t')
  end.

Definition M_bind {A B} (m : M A) (f : A -> M B) : M B := fun s =>
  match m s with
  | Returns a s1 t1 => after t1 (f a s1)
  | NoReturn s1 t1 => NoReturn s1 t1
  end.

#[export] Instance Monad_M : Monad M :=
  {| ret := @M_ret; bind := @M_bind |}.

(** One event, no change of state. *)
Definition emit (e : Event) : M unit := fun s => Returns tt s [e].

(** State update without event. *)
Definition update (f : State -> State) : M unit := fun s => Returns tt (f s) [].

Definition get {A} (f : State -> A) : M A := fun s => Returns (f s) s [].

(** [while( 1 ) { }] *)
Definition forever {A} : M A := fun s => NoReturn s [].

(** [n] calls of [m] in a row. *)
Fixpoint iterate (n : nat) (m : M unit) : M unit :=
  match n with
  | O => ret tt
  | S k => m ;; iterate k m
  end.

(** How often events satisfying [p] occur in a trace. *)
Definition count (p : Event -> bool) (t : list Event) : nat :=
  length (filter p t).

(** Every event satisfying [q] comes after some event satisfying [p]. *)
Fixpoint guarded_from (seen : bool) (p q : Event -> bool) (t : list Event)
  : bool :=
  match t with
  | [] => true
  | e :: t' =>
      (negb (q e) || seen) && guarded_from (seen || p e) p q t'
  end.

Definition guarded (p q : Event -> bool) (t : list Event) : bool :=
  guarded_from false p q t.

(** ** Sample builds and hardware, used for concrete runs *)

(** A build without [USE_FULL_ASSERT] and one with it. *)
Definition cfg_plain : BuildConfig :=
  {| USE_POTENTIOMETER_is_0 := false; USE_ENCODER_is_1 := false;
     USE_DEBUGGER := false; USE_FULL_ASSERT := false |}.

Definition cfg_full_assert : BuildConfig :=
  {| USE_POTENTIOMETER_is_0 := true; USE_ENCODER_is_1 := true;
     USE_DEBUGGER := false; USE_FULL_ASSERT := true |}.

(** Hardware on which every wait ends (after 0, 1 or 2 polls) and every HAL
    call succeeds; core clock 32 MHz. *)
Definition hw_good : Hardware :=
  {| hw_polls := fun n => Some (Nat.modulo n 3);
     hw_status := fun _ => HAL_OK;
     hw_hclk := 32000000 |}.

(** Hardware whose first HAL call ([HAL_RCC_OscConfig]) reports an error. *)
Definition hw_osc_error : Hardware :=
  {| hw_polls := fun _ => Some O;
     hw_status := fun n => match n with O => HAL_ERROR | _ => HAL_OK end;
     hw_hclk := 32000000 |}.

(** Hardware whose external oscillator never starts. *)
Definition hw_dead_hse : Hardware :=
  {| hw_polls := fun n => match n with O => Some O | _ => None end;
     hw_status := fun _ => HAL_OK;
     hw_hclk := 32000000 |}.

(** A state in which [BoardInitMcu] has already run once. *)
Definition warm_state : State :=
  {| McuInitialized := true; SystemWakeupTimeCalibrated := true;
     PRIMASK := false; clock := clock_default; waits := 7; calls := 3 |}.

Section Board.

Variable cfg : BuildConfig.
Variable hw : Hardware.

(** ** Busy-waits

    [while( <condition not seen> );] is resolved by the hardware: either
    the condition is seen after some polls and [seen] records it, or the
    loop never ends. *)
Definition await (c : Condition) (seen : State -> State) : M unit := fun s =>
  match hw_polls hw (waits s) with
  | Some k => Returns tt (seen (next_wait s)) [E_Observed c k]
  | None => NoReturn (next_wait s) []
  end.

Definition on_clock (f : Clock -> Clock) (s : State) : State :=
  set_clock (f (clock s)) s.

(** The status a HAL routine hands back. *)
Definition hal_status (fn : HalRoutine) : M HAL_StatusTypeDef := fun s =>
  let st := hw_status hw (calls s) in
  Returns st (next_call s) [E_HAL_Status fn st].

(** ** Register macros and intrinsics *)

(** Modelled from the spec: the CMSIS intrinsics [__get_PRIMASK],
    [__disable_irq] and [__set_PRIMASK] are not in board.c.  PRIMASK is the
    one-bit global interrupt mask: reading gives 0 or 1, [__disable_irq]
    sets it, [__set_PRIMASK] writes bit 0 of its argument. *)
Definition __get_PRIMASK : M Z :=
  b <- get PRIMASK ;;
  let v := if b then 1 else 0 in
  emit (E_get_PRIMASK v) ;; ret v.

Definition __disable_irq : M unit :=
  emit E_disable_irq ;; update (set_PRIMASK_bit true).

Definition __set_PRIMASK (v : Z) : M unit :=
  emit (E_set_PRIMASK v) ;; update (set_PRIMASK_bit (Z.testbit v 0)).

(** Modelled from the spec: the register macros of the HAL used by the
    clock sequences ([__HAL_RCC_PWR_CLK_ENABLE] to
    [__HAL_RCC_SYSCLK_CONFIG]) are not under src/.  Each is one event; the
    oscillator enable, PLL enable and clock-source selection bits they
    write are mirrored in [clock]. *)
Definition __HAL_RCC_PWR_CLK_ENABLE : M unit := emit E_RCC_PWR_CLK_ENABLE.

Definition __HAL_PWR_VOLTAGESCALING_CONFIG (v : VoltageScale) : M unit :=
  emit (E_PWR_VOLTAGESCALING_CONFIG v).

Definition __HAL_RCC_HSE_CONFIG (st : HseState) : M unit :=
  emit (E_RCC_HSE_CONFIG st) ;;
  match st with
  | RCC_HSE_ON => update (on_clock (set_HSEON true))
  | RCC_HSE_OFF =>
      update (on_clock (fun c => set_HSERDY false (set_HSEON false c)))
  end.

Definition __HAL_RCC_PLL_CONFIG (src : PllSource) (mul : PllMul) (div : PllDiv)
  : M unit := emit (E_RCC_PLL_CONFIG src mul div).

Definition __HAL_RCC_PLL_ENABLE : M unit :=
  emit E_RCC_PLL_ENABLE ;; update (on_clock (set_PLLON true)).

Definition __HAL_RCC_SYSCLK_CONFIG (c : SysClk) : M unit :=
  emit (E_RCC_SYSCLK_CONFIG c) ;; update (on_clock (set_SW c)).

(** ** Drivers called by board.c (external collaborators: one event each) *)

Definition HAL_Init : M unit := emit E_HAL_Init.
Definition GpioInit (obj : GpioObj) (pin : PinNames) (mode : PinModes)
  (config : PinConfigs) (type : PinTypes) (value : Z) : M unit :=
  emit (E_GpioInit obj pin mode config type value).
Definition GpioWrite (obj : GpioObj) (value : Z) : M unit :=
  emit (E_GpioWrite obj value).
Definition FifoInit (f : FifoObj) (size : Z) : M unit := emit (E_FifoInit f size).
Definition UartInit : M unit := emit E_UartInit.
Definition UartConfig (baudrate : Z) : M unit := emit (E_UartConfig baudrate).
Definition RtcInit : M unit := emit E_RtcInit.
Definition LpmSetOffMode_APPLI_DISABLE : M unit :=
  emit E_LpmSetOffMode_APPLI_DISABLE.
Definition AdcInit (pin : PinNames) : M unit := emit (E_AdcInit pin).
Definition AdcDeInit : M unit := emit E_AdcDeInit.
Definition SpiInit (mosi miso sclk nss : PinNames) : M unit :=
  emit (E_SpiInit mosi miso sclk nss).
Definition SpiDeInit : M unit := emit E_SpiDeInit.
Definition SX1272IoInit : M unit := emit E_SX1272IoInit.
Definition SX1272IoDeInit : M unit := emit E_SX1272IoDeInit.
Definition SX1272IoDbgInit : M unit := emit E_SX1272IoDbgInit.
Definition SX1272IoTcxoInit : M unit := emit E_SX1272IoTcxoInit.
Definition EncoderInit : M unit := emit E_EncoderInit.
Definition TimerInit : M unit := emit E_TimerInit.
Definition TimerSetValue (value : Z) : M unit := emit (E_TimerSetValue value).
Definition TimerStart : M unit := emit E_TimerStart.
Definition RtcSetMcuWakeUpTime : M unit := emit E_RtcSetMcuWakeUpTime.
Definition WdtInit : M unit := emit E_WdtInit.
Definition HAL_PWR_DisablePVD : M unit := emit E_HAL_PWR_DisablePVD.
Definition HAL_PWREx_EnableUltraLowPower : M unit :=
  emit E_HAL_PWREx_EnableUltraLowPower.
Definition HAL_PWREx_EnableFastWakeUp : M unit :=
  emit E_HAL_PWREx_EnableFastWakeUp.
Definition HAL_RCC_GetHCLKFreq : M Z := ret (hw_hclk hw).
Definition HAL_SYSTICK_Config (ticks : Z) : M unit :=
  emit (E_HAL_SYSTICK_Config ticks).
Definition HAL_SYSTICK_CLKSourceConfig_HCLK : M unit :=
  emit E_HAL_SYSTICK_CLKSourceConfig_HCLK.
Definition HAL_NVIC_SetPriority_SysTick : M unit :=
  emit E_HAL_NVIC_SetPriority_SysTick.

(** Modelled from the spec: [HAL_PWR_EnterSTOPMode] and
    [HAL_PWR_EnterSLEEPMode] belong to the HAL driver, which is not in
    board.c.  Stop mode halts the processor until a wake source fires and
    powers the oscillators down (the resume sequence exists because they
    "may have lost their enabled state"); Sleep mode halts the core only. *)
Definition HAL_PWR_EnterSTOPMode (r : Regulator) (e : LowPowerEntry) : M unit :=
  emit (E_HAL_PWR_EnterSTOPMode r e) ;;
  await WakeupEvent (set_clock clock_default).

Definition HAL_PWR_EnterSLEEPMode (r : Regulator) (e : LowPowerEntry) : M unit :=
  emit (E_HAL_PWR_EnterSLEEPMode r e) ;;
  await WakeupEvent (fun s => s).

(** ** The clock configuration structures of the HAL, as board.c fills them

    The structure types and the bit masks come from HAL headers; the masks
    only need to be distinct bits. *)

Definition RCC_OSCILLATORTYPE_HSE : Z := 1.
Definition RCC_OSCILLATORTYPE_LSE : Z := 4.
Definition RCC_CLOCKTYPE_SYSCLK : Z := 1.
Definition RCC_CLOCKTYPE_HCLK : Z := 2.
Definition RCC_CLOCKTYPE_PCLK1 : Z := 4.
Definition RCC_CLOCKTYPE_PCLK2 : Z := 8.

Record RCC_PLLInitTypeDef := {
  PLLState : PllState; PLLSource : PllSource; PLLMUL : PllMul; PLLDIV : PllDiv
}.

Record RCC_OscInitTypeDef := {
  OscillatorType : Z; HSEState : HseState; LSEState : LseState;
  PLL : RCC_PLLInitTypeDef
}.

Record RCC_ClkInitTypeDef := { ClockType : Z; SYSCLKSource : SysClk }.

Definition has_bit (mask bit : Z) : bool := negb (Z.land mask bit =? 0).

(** Modelled from the spec: [HAL_RCC_OscConfig], [HAL_RCC_ClockConfig] and
    [HAL_RCCEx_PeriphCLKConfig] belong to the HAL driver, which is not in
    board.c.  Following the cold sequence of the Clock Controller: the
    requested oscillators are enabled and awaited, then the PLL is
    configured from its source, enabled and awaited; the clock
    configuration selects the system clock source, waits until the hardware
    reports it and sets the bus dividers; the peripheral-clock
    configuration routes the low-speed oscillator to the RTC.  Every wait
    is unbounded, and each routine hands back a status. *)
Definition HAL_RCC_OscConfig (o : RCC_OscInitTypeDef) : M HAL_StatusTypeDef :=
  (if has_bit (OscillatorType o) RCC_OSCILLATORTYPE_HSE then
     __HAL_RCC_HSE_CONFIG (HSEState o) ;;
     match HSEState o with
     | RCC_HSE_ON => await RCC_FLAG_HSERDY (on_clock (set_HSERDY true))
     | RCC_HSE_OFF => ret tt
     end
   else ret tt) ;;
  (if has_bit (OscillatorType o) RCC_OSCILLATORTYPE_LSE then
     emit (E_RCC_LSE_CONFIG (LSEState o)) ;;
     match LSEState o with
     | RCC_LSE_ON => await RCC_FLAG_LSERDY (fun s => s)
     | RCC_LSE_OFF => ret tt
     end
   else ret tt) ;;
  match PLLState (PLL o) with
  | RCC_PLL_ON =>
      __HAL_RCC_PLL_CONFIG (PLLSource (PLL o)) (PLLMUL (PLL o)) (PLLDIV (PLL o)) ;;
      __HAL_RCC_PLL_ENABLE ;;
      await RCC_FLAG_PLLRDY (on_clock (set_PLLRDY true))
  | _ => ret tt
  end ;;
  hal_status Fn_HAL_RCC_OscConfig.

Definition HAL_RCC_ClockConfig (c : RCC_ClkInitTypeDef) : M HAL_StatusTypeDef :=
  (if has_bit (ClockType c) RCC_CLOCKTYPE_SYSCLK then
     __HAL_RCC_SYSCLK_CONFIG (SYSCLKSource c) ;;
     await (SYSCLK_SOURCE_is (SYSCLKSource c))
           (on_clock (set_SWS (SYSCLKSource c)))
   else ret tt) ;;
  emit E_RCC_BusDividers ;;
  hal_status Fn_HAL_RCC_ClockConfig.

Definition HAL_RCCEx_PeriphCLKConfig_RTC_LSE : M HAL_StatusTypeDef :=
  emit E_RCC_RTC_CONFIG_LSE ;;
  hal_status Fn_HAL_RCCEx_PeriphCLKConfig.

(** ** board.c *)

Definition UART1_FIFO_TX_SIZE : Z := 1024.
Definition UART1_FIFO_RX_SIZE : Z := 1024.

(** Modelled from the spec: [FAIL] is declared in a header that is not
    under src/.  A failed cold clock step is fatal, so the value asserted
    on failure is the false one. *)
Definition FAIL : Z := 0.

(** [assert_failed]: report, then [while( 1 ) { }]. *)
Definition assert_failed (line : Z) : M unit :=
  emit (E_printf_wrong_parameters line) ;;
  forever.

(** Modelled from the spec: the macro [assert_param] comes from the HAL
    configuration header, which is not in board.c.  board.c compiles
    [assert_failed] only under [USE_FULL_ASSERT]; in that build a false
    argument reaches it (the fatal trap of the error-handling design), in
    the other build no [assert_failed] exists and the macro is empty. *)
Definition assert_param (expr : Z) (line : Z) : M unit :=
  if USE_FULL_ASSERT cfg then
    if expr =? 0 then assert_failed line else ret tt
  else ret tt.

(** Callback indicating the end of the system wake-up time calibration. *)
Definition OnCalibrateSystemWakeupTimeTimerEvent : M unit :=
  RtcSetMcuWakeUpTime ;;
  update (set_SystemWakeupTimeCalibrated true).

Definition BoardCriticalSectionBegin : M Z :=
  mask <- __get_PRIMASK ;;
  __disable_irq ;;
  ret mask.

Definition BoardCriticalSectionEnd (mask : Z) : M unit :=
  __set_PRIMASK mask.

Definition GetBoardPowerSource : M BoardPowerSources :=
  ret BATTERY_POWER.

Definition BoardUnusedIoInit : M unit :=
  src <- GetBoardPowerSource ;;
  (if BoardPowerSources_eqb src BATTERY_POWER then
     GpioInit ioPin USB_DM PIN_ANALOGIC PIN_PUSH_PULL PIN_NO_PULL 0 ;;
     GpioInit ioPin USB_DP PIN_ANALOGIC PIN_PUSH_PULL PIN_NO_PULL 0
   else ret tt) ;;
  if USE_DEBUGGER cfg then
    emit (E_DBGMCU_DBGSleepMode true) ;;
    emit (E_DBGMCU_DBGStopMode true) ;;
    emit (E_DBGMCU_DBGStandbyMode true) ;;
    emit (E_DBGMCU_FREEZE_WWDG true) ;;
    emit (E_DBGMCU_FREEZE_IWDG true)
  else
    emit (E_DBGMCU_DBGSleepMode false) ;;
    emit (E_DBGMCU_DBGStopMode false) ;;
    emit (E_DBGMCU_DBGStandbyMode false) ;;
    emit (E_DBGMCU_FREEZE_WWDG false) ;;
    emit (E_DBGMCU_FREEZE_IWDG false) ;;
    GpioInit ioPin JTAG_TMS PIN_ANALOGIC PIN_PUSH_PULL PIN_NO_PULL 0 ;;
    GpioInit ioPin JTAG_TCK PIN_ANALOGIC PIN_PUSH_PULL PIN_NO_PULL 0 ;;
    GpioInit ioPin JTAG_TDI PIN_ANALOGIC PIN_PUSH_PULL PIN_NO_PULL 0 ;;
    GpioInit ioPin JTAG_TDO PIN_ANALOGIC PIN_PUSH_PULL PIN_NO_PULL 0 ;;
    GpioInit ioPin JTAG_NRST PIN_ANALOGIC PIN_PUSH_PULL PIN_NO_PULL 0.

Definition SystemClockConfig : M unit :=
  __HAL_RCC_PWR_CLK_ENABLE ;;
  __HAL_PWR_VOLTAGESCALING_CONFIG PWR_REGULATOR_VOLTAGE_SCALE1 ;;
  let RCC_OscInitStruct :=
    {| OscillatorType := Z.lor RCC_OSCILLATORTYPE_HSE RCC_OSCILLATORTYPE_LSE;
       HSEState := RCC_HSE_ON;
       LSEState := RCC_LSE_ON;
       PLL := {| PLLState := RCC_PLL_ON; PLLSource := RCC_PLLSOURCE_HSE;
                 PLLMUL := RCC_PLL_MUL6; PLLDIV := RCC_PLL_DIV3 |} |} in
  st <- HAL_RCC_OscConfig RCC_OscInitStruct ;;
  (if negb (HAL_Status_eqb st HAL_OK) then assert_param FAIL 440 else ret tt) ;;
  let RCC_ClkInitStruct :=
    {| ClockType :=
         Z.lor (Z.lor (Z.lor RCC_CLOCKTYPE_HCLK RCC_CLOCKTYPE_SYSCLK)
                      RCC_CLOCKTYPE_PCLK1) RCC_CLOCKTYPE_PCLK2;
       SYSCLKSource := CLK_PLL |} in
  st <- HAL_RCC_ClockConfig RCC_ClkInitStruct ;;
  (if negb (HAL_Status_eqb st HAL_OK) then assert_param FAIL 451 else ret tt) ;;
  st <- HAL_RCCEx_PeriphCLKConfig_RTC_LSE ;;
  (if negb (HAL_Status_eqb st HAL_OK) then assert_param FAIL 458 else ret tt) ;;
  f <- HAL_RCC_GetHCLKFreq ;;
  HAL_SYSTICK_Config (f / 1000) ;;
  HAL_SYSTICK_CLKSourceConfig_HCLK ;;
  HAL_NVIC_SetPriority_SysTick.

(** The busy-wait of [CalibrateSystemWakeupTime]: the flag polled is a
    variable, set by the timer's callback when its interrupt is served. *)
Definition wait_SystemWakeupTimeCalibrated : M unit :=
  await CalibrationTimerElapsed (fun s => s) ;;
  OnCalibrateSystemWakeupTimeTimerEvent.

Definition CalibrateSystemWakeupTime : M unit :=
  cal <- get SystemWakeupTimeCalibrated ;;
  if Bool.eqb cal false then
    TimerInit ;;
    TimerSetValue 1000 ;;
    TimerStart ;;
    wait_SystemWakeupTimeCalibrated
  else ret tt.

Definition SystemClockReConfig : M unit :=
  __HAL_RCC_PWR_CLK_ENABLE ;;
  __HAL_PWR_VOLTAGESCALING_CONFIG PWR_REGULATOR_VOLTAGE_SCALE1 ;;
  await PWR_FLAG_VOS_reset (fun s => s) ;;
  __HAL_RCC_HSE_CONFIG RCC_HSE_ON ;;
  await RCC_FLAG_HSERDY (on_clock (set_HSERDY true)) ;;
  __HAL_RCC_PLL_CONFIG RCC_PLLSOURCE_HSE RCC_PLL_MUL6 RCC_PLL_DIV3 ;;
  __HAL_RCC_PLL_ENABLE ;;
  await RCC_FLAG_PLLRDY (on_clock (set_PLLRDY true)) ;;
  __HAL_RCC_SYSCLK_CONFIG CLK_PLL ;;
  await (SYSCLK_SOURCE_is CLK_PLL) (on_clock (set_SWS CLK_PLL)).

Definition BoardInitMcu : M unit :=
  init <- get McuInitialized ;;
  (if Bool.eqb init false then
     HAL_Init ;;
     (if USE_POTENTIOMETER_is_0 cfg then
        GpioInit Led1 LED_1 PIN_OUTPUT PIN_PUSH_PULL PIN_NO_PULL 1
      else ret tt) ;;
     SystemClockConfig ;;
     FifoInit Uart1_FifoTx UART1_FIFO_TX_SIZE ;;
     FifoInit Uart1_FifoRx UART1_FIFO_RX_SIZE ;;
     UartInit ;;
     UartConfig 115200 ;;
     RtcInit ;;
     (if USE_POTENTIOMETER_is_0 cfg then GpioWrite Led1 0 else ret tt) ;;
     GpioInit Led1 LED_1 PIN_OUTPUT PIN_PUSH_PULL PIN_NO_PULL 1 ;;
     GpioInit Led2 LED_2 PIN_OUTPUT PIN_PUSH_PULL PIN_NO_PULL 1 ;;
     GpioInit Led3 LED_3 PIN_OUTPUT PIN_PUSH_PULL PIN_NO_PULL 1 ;;
     GpioInit Led4 LED_4 PIN_OUTPUT PIN_PUSH_PULL PIN_NO_PULL 1 ;;
     BoardUnusedIoInit ;;
     src <- GetBoardPowerSource ;;
     if BoardPowerSources_eqb src BATTERY_POWER then
       LpmSetOffMode_APPLI_DISABLE
     else ret tt
   else
     SystemClockReConfig) ;;
  AdcInit POTI ;;
  SpiInit RADIO_MOSI RADIO_MISO RADIO_SCLK NC ;;
  SX1272IoInit ;;
  (if USE_ENCODER_is_1 cfg then
     EncoderInit ;;
     GpioWrite Led2 0 ;;
     GpioWrite Led3 0 ;;
     GpioWrite Led4 0
   else ret tt) ;;
  init <- get McuInitialized ;;
  (if Bool.eqb init false then
     update (set_McuInitialized true) ;;
     SX1272IoDbgInit ;;
     SX1272IoTcxoInit ;;
     src <- GetBoardPowerSource ;;
     if BoardPowerSources_eqb src BATTERY_POWER then
       CalibrateSystemWakeupTime
     else ret tt
   else ret tt) ;;
  WdtInit.

(** [NVIC_SystemReset] does not return. *)
Definition BoardResetMcu : M unit :=
  mask <- BoardCriticalSectionBegin ;;
  emit E_NVIC_SystemReset ;;
  forever.

Definition BoardDeInitMcu : M unit :=
  AdcDeInit ;;
  SpiDeInit ;;
  SX1272IoDeInit ;;
  GpioInit ioPin OSC_HSE_IN PIN_ANALOGIC PIN_PUSH_PULL PIN_NO_PULL 1 ;;
  GpioInit ioPin OSC_HSE_OUT PIN_ANALOGIC PIN_PUSH_PULL PIN_NO_PULL 1 ;;
  GpioInit ioPin OSC_LSE_IN PIN_INPUT PIN_PUSH_PULL PIN_PULL_DOWN 1 ;;
  GpioInit ioPin OSC_LSE_OUT PIN_INPUT PIN_PUSH_PULL PIN_PULL_DOWN 1.

(** [CRITICAL_SECTION_BEGIN( )] declares a local [mask] and passes its
    address to [BoardCriticalSectionBegin]; [CRITICAL_SECTION_END( )] passes
    the same address to [BoardCriticalSectionEnd]. *)
Definition LpmEnterStopMode : M unit :=
  mask <- BoardCriticalSectionBegin ;;
  BoardDeInitMcu ;;
  HAL_PWR_DisablePVD ;;
  emit E_SET_BIT_PWR_CR_CWUF ;;
  HAL_PWREx_EnableUltraLowPower ;;
  HAL_PWREx_EnableFastWakeUp ;;
  BoardCriticalSectionEnd mask ;;
  HAL_PWR_EnterSTOPMode PWR_LOWPOWERREGULATOR_ON ENTRY_WFI.

Definition LpmExitStopMode : M unit :=
  mask <- BoardCriticalSectionBegin ;;
  BoardInitMcu ;;
  BoardCriticalSectionEnd mask.

Definition LpmEnterSleepMode : M unit :=
  HAL_PWR_EnterSLEEPMode PWR_MAINREGULATOR_ON ENTRY_WFI.

(** The functions of board.c embedded above, for statements about all of
    them. *)
Inductive Operation :=
| Op_BoardCriticalSectionBegin | Op_BoardCriticalSectionEnd (mask : Z)
| Op_BoardInitMcu | Op_BoardResetMcu | Op_BoardDeInitMcu
| Op_BoardUnusedIoInit | Op_SystemClockConfig | Op_CalibrateSystemWakeupTime
| Op_SystemClockReConfig | Op_OnCalibrateSystemWakeupTimeTimerEvent
| Op_GetBoardPowerSource
| Op_LpmEnterStopMode | Op_LpmExitStopMode | Op_LpmEnterSleepMode.

Definition run (op : Operation) : M unit :=
  match op with
  | Op_BoardCriticalSectionBegin => _ <- BoardCriticalSectionBegin ;; ret tt
  | Op_BoardCriticalSectionEnd mask => BoardCriticalSectionEnd mask
  | Op_BoardInitMcu => BoardInitMcu
  | Op_BoardResetMcu => BoardResetMcu
  | Op_BoardDeInitMcu => BoardDeInitMcu
  | Op_BoardUnusedIoInit => BoardUnusedIoInit
  | Op_SystemClockConfig => SystemClockConfig
  | Op_CalibrateSystemWakeupTime => CalibrateSystemWakeupTime
  | Op_SystemClockReConfig => SystemClockReConfig
  | Op_OnCalibrateSystemWakeupTimeTimerEvent =>
      OnCalibrateSystemWakeupTimeTimerEvent
  | Op_GetBoardPowerSource => _ <- GetBoardPowerSource ;; ret tt
  | Op_LpmEnterStopMode => LpmEnterStopMode
  | Op_LpmExitStopMode => LpmExitStopMode
  | Op_LpmEnterSleepMode => LpmEnterSleepMode
  end.


(** ** board.c: device identification and measurements *)

(** Conversion to [uint8_t], [uint16_t] and [uint32_t]. *)
Definition uint8 (x : Z) : Z := x mod 256.
Definition uint16 (x : Z) : Z := x mod 65536.
Definition uint32 (x : Z) : Z := x mod 4294967296.

(** [id1], [id2], [id3]: the 32-bit words read at the addresses [ID1],
    [ID2] and [ID3] of the unique device ID register set. *)
Definition BoardGetRandomSeed (id1 id2 id3 : Z) : Z :=
  Z.lxor (Z.lxor id1 id2) id3.

(** [buf[i] = v] on a buffer of [uint8_t]; a write outside the buffer is
    undefined in C and gives [None]. *)
Definition store (i : nat) (v : Z) (buf : option (list Z)) : option (list Z) :=
  match buf with
  | Some b =>
      if Nat.ltb i (length b)
      then Some (firstn i b ++ uint8 v :: skipn (S i) b)
      else None
  | None => None
  end.

Definition BoardGetUniqueId (id1 id2 id3 : Z) (id : list Z)
  : option (list Z) :=
  let id := store 7 (Z.shiftr (uint32 (id1 + id3)) 24) (Some id) in
  let id := store 6 (Z.shiftr (uint32 (id1 + id3)) 16) id in
  let id := store 5 (Z.shiftr (uint32 (id1 + id3)) 8) id in
  let id := store 4 (uint32 (id1 + id3)) id in
  let id := store 3 (Z.shiftr id2 24) id in
  let id := store 2 (Z.shiftr id2 16) id in
  let id := store 1 (Z.shiftr id2 8) id in
  store 0 id2 id.

Definition POTI_MAX_LEVEL : Z := 900.
Definition POTI_MIN_LEVEL : Z := 10.

(** [analog_alarm]: the field [config.analog_alarm]; [adc3]: what
    [AdcReadChannel( &Adc , ADC_CHANNEL_3 )] returns when it is called. *)
Definition BoardGetPotiLevel (analog_alarm adc3 : Z) : Z :=
  let potiLevel := 0 in
  let vpoti := 0 in
  let vpoti := if analog_alarm >? 0 then uint16 adc3 else vpoti in
  let potiLevel :=
    if vpoti >=? POTI_MAX_LEVEL then 100
    else if vpoti <=? POTI_MIN_LEVEL then 0
    else uint8 (Z.quot ((vpoti - POTI_MIN_LEVEL) * 100) POTI_MAX_LEVEL) in
  if USE_ENCODER_is_1 cfg then vpoti else potiLevel.

(** [#if !defined (USE_ENCODER)]: 4095, else 1023. *)
Definition ADC_MAX_VALUE (USE_ENCODER_defined : bool) : Z :=
  if USE_ENCODER_defined then 1023 else 4095.

Definition ADC_VREF_BANDGAP : Z := 1224.
Definition BATTERY_MAX_LEVEL : Z := 3000.
Definition BATTERY_MIN_LEVEL : Z := 2400.
Definition BATTERY_SHUTDOWN_LEVEL : Z := 2300.

(** [adc17]: what [AdcReadChannel( &Adc , ADC_CHANNEL_17 )] returns.  The
    division by a zero reading is undefined in C and gives [None]. *)
Definition BoardBatteryMeasureVolage (USE_ENCODER_defined : bool) (adc17 : Z)
  : option Z :=
  let vref := uint16 adc17 in
  let batteryVoltage :=
    uint32 (uint32 ADC_VREF_BANDGAP
            * uint32 (ADC_MAX_VALUE USE_ENCODER_defined)) in
  if vref =? 0 then None
  else
    let batteryVoltage := batteryVoltage / vref in
    Some (uint16 batteryVoltage).

(** [BatteryVoltage]: the global of that name, initially
    [BATTERY_MAX_LEVEL]. *)
Definition BoardGetBatteryVoltage (BatteryVoltage : Z) : Z := BatteryVoltage.

(** Returns the new value of the global [BatteryVoltage] and the level. *)
Definition BoardGetBatteryLevel (USE_ENCODER_defined : bool) (adc17 : Z)
  : M (option (Z * Z)) :=
  let batteryLevel := 0 in
  match BoardBatteryMeasureVolage USE_ENCODER_defined adc17 with
  | None => ret None
  | Some BatteryVoltage =>
      src <- GetBoardPowerSource ;;
      let batteryLevel :=
        if BoardPowerSources_eqb src USB_POWER then 0
        else if BatteryVoltage >=? BATTERY_MAX_LEVEL then 254
        else if (BatteryVoltage >? BATTERY_MIN_LEVEL)
                && (BatteryVoltage <? BATTERY_MAX_LEVEL)
        then uint8 (Z.quot (253 * (BatteryVoltage - BATTERY_MIN_LEVEL))
                           (BATTERY_MAX_LEVEL - BATTERY_MIN_LEVEL) + 1)
        else if (BatteryVoltage >? BATTERY_SHUTDOWN_LEVEL)
                && (BatteryVoltage <=? BATTERY_MIN_LEVEL)
        then 1
        else 255 in
      ret (Some (BatteryVoltage, batteryLevel))
  end.

(** ** Notions used in the statements *)

(** The resume branch of [BoardInitMcu]: what the function executes when
    [McuInitialized] is already set. *)
Definition resume_path : M unit :=
  SystemClockReConfig ;;
  AdcInit POTI ;;
  SpiInit RADIO_MOSI RADIO_MISO RADIO_SCLK NC ;;
  SX1272IoInit ;;
  (if USE_ENCODER_is_1 cfg then
     EncoderInit ;;
     GpioWrite Led2 0 ;;
     GpioWrite Led3 0 ;;
     GpioWrite Led4 0
   else ret tt) ;;
  WdtInit.

(** Every wait ends; every HAL call succeeds. *)
Definition hw_responsive : Prop := forall n, hw_polls hw n <> None.
Definition hw_all_ok : Prop := forall n, hw_status hw n = HAL_OK.

(** *** Cold boot

    The steps that belong to the cold branch of [BoardInitMcu] and to the
    calibration, each recognised by a call only that step makes.  LED 1 is
    initialised twice in the cold branch when [USE_POTENTIOMETER == 0]
    (before the clock configuration and again with the other LEDs), so the
    LED switch-off is recognised by LED 2 to LED 4. *)
Inductive ColdStep :=
| Step_HAL_Init
| Step_SystemClockConfig_Osc | Step_SystemClockConfig_Clock
| Step_SystemClockConfig_Periph | Step_SystemClockConfig_SysTick
| Step_FifoInit_Tx | Step_FifoInit_Rx | Step_UartInit | Step_UartConfig
| Step_RtcInit
| Step_Led2_off | Step_Led3_off | Step_Led4_off
| Step_BoardUnusedIoInit
| Step_LpmSetOffMode
| Step_SX1272IoDbgInit | Step_SX1272IoTcxoInit
| Step_TimerInit | Step_TimerSetValue | Step_TimerStart
| Step_RtcSetMcuWakeUpTime.

Definition step_marker (st : ColdStep) (e : Event) : bool :=
  match st, e with
  | Step_HAL_Init, E_HAL_Init => true
  | Step_SystemClockConfig_Osc, E_HAL_Status Fn_HAL_RCC_OscConfig _ => true
  | Step_SystemClockConfig_Clock, E_HAL_Status Fn_HAL_RCC_ClockConfig _ => true
  | Step_SystemClockConfig_Periph,
    E_HAL_Status Fn_HAL_RCCEx_PeriphCLKConfig _ => true
  | Step_SystemClockConfig_SysTick, E_HAL_SYSTICK_Config _ => true
  | Step_FifoInit_Tx, E_FifoInit Uart1_FifoTx _ => true
  | Step_FifoInit_Rx, E_FifoInit Uart1_FifoRx _ => true
  | Step_UartInit, E_UartInit => true
  | Step_UartConfig, E_UartConfig _ => true
  | Step_RtcInit, E_RtcInit => true
  | Step_Led2_off, E_GpioInit Led2 _ _ _ _ _ => true
  | Step_Led3_off, E_GpioInit Led3 _ _ _ _ _ => true
  | Step_Led4_off, E_GpioInit Led4 _ _ _ _ _ => true
  | Step_BoardUnusedIoInit, E_DBGMCU_DBGSleepMode _ => true
  | Step_LpmSetOffMode, E_LpmSetOffMode_APPLI_DISABLE => true
  | Step_SX1272IoDbgInit, E_SX1272IoDbgInit => true
  | Step_SX1272IoTcxoInit, E_SX1272IoTcxoInit => true
  | Step_TimerInit, E_TimerInit => true
  | Step_TimerSetValue, E_TimerSetValue _ => true
  | Step_TimerStart, E_TimerStart => true
  | Step_RtcSetMcuWakeUpTime, E_RtcSetMcuWakeUpTime => true
  | _, _ => false
  end.

Definition all_cold_steps : list ColdStep :=
  [ Step_HAL_Init; Step_SystemClockConfig_Osc; Step_SystemClockConfig_Clock;
    Step_SystemClockConfig_Periph; Step_SystemClockConfig_SysTick;
    Step_FifoInit_Tx; Step_FifoInit_Rx; Step_UartInit; Step_UartConfig;
    Step_RtcInit; Step_Led2_off; Step_Led3_off; Step_Led4_off;
    Step_BoardUnusedIoInit; Step_LpmSetOffMode;
    Step_SX1272IoDbgInit; Step_SX1272IoTcxoInit;
    Step_TimerInit; Step_TimerSetValue; Step_TimerStart;
    Step_RtcSetMcuWakeUpTime ].

(** An event of the cold branch or of the calibration. *)
Definition cold_only (e : Event) : bool :=
  existsb (fun st => step_marker st e) all_cold_steps.

(** *** Clock ordering *)

Definition is_HSERDY_seen (e : Event) : bool :=
  match e with E_Observed RCC_FLAG_HSERDY _ => true | _ => false end.
Definition is_PLLRDY_seen (e : Event) : bool :=
  match e with E_Observed RCC_FLAG_PLLRDY _ => true | _ => false end.
Definition is_PLL_ENABLE (e : Event) : bool :=
  match e with E_RCC_PLL_ENABLE => true | _ => false end.
Definition is_SYSCLK_PLL (e : Event) : bool :=
  match e with E_RCC_SYSCLK_CONFIG CLK_PLL => true | _ => false end.

(** No PLL enable before the oscillator was seen ready, no switch of the
    system clock to the PLL before the PLL was seen locked. *)
Definition clock_order (t : list Event) : bool :=
  guarded is_HSERDY_seen is_PLL_ENABLE t
  && guarded is_PLLRDY_seen is_SYSCLK_PLL t.

(** *** Critical section *)

(** The events of [t] between the [__disable_irq] of
    [BoardCriticalSectionBegin] and the [__set_PRIMASK] of
    [BoardCriticalSectionEnd], and the events after the latter. *)
Fixpoint until_set_PRIMASK (t : list Event)
  : option (list Event * list Event) :=
  match t with
  | [] => None
  | E_set_PRIMASK _ :: rest => Some ([], rest)
  | e :: t' =>
      match until_set_PRIMASK t' with
      | Some (inside, rest) => Some (e :: inside, rest)
      | None => None
      end
  end.

Definition critical_section (t : list Event)
  : option (list Event * list Event) :=
  match t with
  | E_get_PRIMASK _ :: E_disable_irq :: t' => until_set_PRIMASK t'
  | _ => None
  end.

Definition teardown_events : list Event :=
  [ E_AdcDeInit; E_SpiDeInit; E_SX1272IoDeInit;
    E_GpioInit ioPin OSC_HSE_IN PIN_ANALOGIC PIN_PUSH_PULL PIN_NO_PULL 1;
    E_GpioInit ioPin OSC_HSE_OUT PIN_ANALOGIC PIN_PUSH_PULL PIN_NO_PULL 1;
    E_GpioInit ioPin OSC_LSE_IN PIN_INPUT PIN_PUSH_PULL PIN_PULL_DOWN 1;
    E_GpioInit ioPin OSC_LSE_OUT PIN_INPUT PIN_PUSH_PULL PIN_PULL_DOWN 1 ].

Definition power_control_events : list Event :=
  [ E_HAL_PWR_DisablePVD; E_SET_BIT_PWR_CR_CWUF;
    E_HAL_PWREx_EnableUltraLowPower; E_HAL_PWREx_EnableFastWakeUp ].

Definition halt_event : Event :=
  E_HAL_PWR_EnterSTOPMode PWR_LOWPOWERREGULATOR_ON ENTRY_WFI.

(** The claim on Stop entry as the spec words it: teardown inside the
    critical section, power control after its end, then the halt. *)
Definition stop_entry_as_specified (t : list Event) : Prop :=
  exists inside after_cs,
    critical_section t = Some (inside, after_cs) /\
    incl teardown_events inside /\
    incl power_control_events after_cs /\
    In halt_event after_cs.

(** What board.c does: teardown and power control inside the critical
    section, the halt right after it. *)
Definition stop_entry_as_coded (t : list Event) : Prop :=
  exists rest,
    critical_section t =
      Some (teardown_events ++ power_control_events, halt_event :: rest)
    /\ (rest = [] \/ exists k, rest = [E_Observed WakeupEvent k]).

(** *** Failure of a cold clock configuration step *)

(** The claim as the spec words it: whenever one of the HAL routines of
    [SystemClockConfig] has reported a status other than [HAL_OK], the
    function does not return. *)
Definition traps_on_failure : Prop :=
  forall s fn st,
    In (E_HAL_Status fn st) (trace_of (SystemClockConfig s)) ->
    st <> HAL_OK ->
    returns (SystemClockConfig s) = false.

Definition is_USB_DM_analog (e : Event) : bool :=
  match e with
  | E_GpioInit ioPin USB_DM PIN_ANALOGIC _ _ _ => true
  | _ => false
  end.
Definition is_USB_DP_analog (e : Event) : bool :=
  match e with
  | E_GpioInit ioPin USB_DP PIN_ANALOGIC _ _ _ => true
  | _ => false
  end.

(** The value [__get_PRIMASK] reads in state [s]. *)
Definition mask_of (s : State) : Z := if PRIMASK s then 1 else 0.

(** The last two events of a trace. *)
Fixpoint last_two (t : list Event) : option (Event * Event) :=
  match t with
  | [] | [_] => None
  | [a; b] => Some (a, b)
  | _ :: t' => last_two t'
  end.

(** The events of the radio and ADC bring-up common to both branches. *)
Definition adc_and_radio_init : list Event :=
  [ E_AdcInit POTI; E_SpiInit RADIO_MOSI RADIO_MISO RADIO_SCLK NC;
    E_SX1272IoInit ].

(** The one-shot timer armed by the calibration. *)
Definition calibration_trace (k : nat) : list Event :=
  [ E_TimerInit; E_TimerSetValue 1000; E_TimerStart;
    E_Observed CalibrationTimerElapsed k; E_RtcSetMcuWakeUpTime ].

(** The events with which [BoardUnusedIoInit] treats the USB lines. *)
Definition usb_lines_analog : list Event :=
  [ E_GpioInit ioPin USB_DM PIN_ANALOGIC PIN_PUSH_PULL PIN_NO_PULL 0;
    E_GpioInit ioPin USB_DP PIN_ANALOGIC PIN_PUSH_PULL PIN_NO_PULL 0 ].

(** *** Stop and wake cycles *)

(** One Stop entry followed, after the wake-up, by the Stop exit. *)
Definition stop_wake_cycle : M unit :=
  LpmEnterStopMode ;; LpmExitStopMode.

(** Whether a peripheral is initialised after the events of [t], given
    that it was [up] before: the last of its init and de-init calls
    decides. *)
Fixpoint up_after (init deinit : Event -> bool) (up : bool) (t : list Event)
  : bool :=
  match t with
  | [] => up
  | e :: t' =>
      up_after init deinit
        (if init e then true else if deinit e then false else up) t'
  end.

Definition is_AdcInit (e : Event) : bool :=
  match e with E_AdcInit _ => true | _ => false end.
Definition is_AdcDeInit (e : Event) : bool :=
  match e with E_AdcDeInit => true | _ => false end.
Definition is_SpiInit (e : Event) : bool :=
  match e with E_SpiInit _ _ _ _ => true | _ => false end.
Definition is_SpiDeInit (e : Event) : bool :=
  match e with E_SpiDeInit => true | _ => false end.
Definition is_SX1272IoInit (e : Event) : bool :=
  match e with E_SX1272IoInit => true | _ => false end.
Definition is_SX1272IoDeInit (e : Event) : bool :=
  match e with E_SX1272IoDeInit => true | _ => false end.
Definition is_WdtInit (e : Event) : bool :=
  match e with E_WdtInit => true | _ => false end.
Definition is_SysTick_Config (e : Event) : bool :=
  match e with E_HAL_SYSTICK_Config _ => true | _ => false end.

(** ADC, radio SPI bus and radio I/O are all initialised after [t]. *)
Definition peripherals_up (before : bool) (t : list Event) : bool :=
  up_after is_AdcInit is_AdcDeInit before t
  && up_after is_SpiInit is_SpiDeInit before t
  && up_after is_SX1272IoInit is_SX1272IoDeInit before t.


(** What [BoardInitMcu] does once the clock configuration is complete. *)
Definition after_clock_config (e : Event) : bool :=
  is_SysTick_Config e || step_marker Step_UartInit e
  || step_marker Step_RtcInit e || is_AdcInit e || is_SpiInit e
  || is_SX1272IoInit e || is_WdtInit e.

Definition is_HAL_Status (e : Event) : bool :=
  match e with E_HAL_Status _ _ => true | _ => false end.

(** The order in which [BoardInitMcu] brings things up: UART and RTC after
    the clock configuration is complete, the calibration timer after the
    RTC, the radio I/O after its SPI bus, the watchdog after the radio. *)
Definition boot_order (t : list Event) : bool :=
  guarded is_SysTick_Config (step_marker Step_UartInit) t
  && guarded is_SysTick_Config (step_marker Step_RtcInit) t
  && guarded (step_marker Step_RtcInit) (step_marker Step_TimerInit) t
  && guarded is_SpiInit is_SX1272IoInit t
  && guarded is_SX1272IoInit is_WdtInit t.

(** *** Critical sections within critical sections *)

(** [n] critical sections, one inside the other, around [body].  Each pair
    has its own token: [CRITICAL_SECTION_BEGIN( )] declares the variable
    [mask] of the block it opens. *)
Fixpoint nested (n : nat) (body : M unit) : M unit :=
  match n with
  | O => body
  | S k =>
      mask <- BoardCriticalSectionBegin ;;
      nested k body ;;
      BoardCriticalSectionEnd mask
  end.

(** *** Unused pins *)

Definition is_JTAG_analog (e : Event) : bool :=
  match e with
  | E_GpioInit ioPin (JTAG_TMS | JTAG_TCK | JTAG_TDI | JTAG_TDO | JTAG_NRST)
      PIN_ANALOGIC _ _ _ => true
  | _ => false
  end.

(** The settings of the debug unit made by the events of [t]: [true] for
    an enable or a freeze, [false] for a disable or an unfreeze. *)
Fixpoint debug_settings (t : list Event) : list bool :=
  match t with
  | [] => []
  | (E_DBGMCU_DBGSleepMode b | E_DBGMCU_DBGStopMode b
     | E_DBGMCU_DBGStandbyMode b | E_DBGMCU_FREEZE_WWDG b
     | E_DBGMCU_FREEZE_IWDG b) :: t' => b :: debug_settings t'
  | _ :: t' => debug_settings t'
  end.

(** Every pin configured by the events of [t] is put in analog mode. *)
Definition only_analog (t : list Event) : bool :=
  forallb (fun e => match e with
                    | E_GpioInit _ _ PIN_ANALOGIC _ _ _ => true
                    | E_GpioInit _ _ _ _ _ _ => false
                    | _ => true
                    end) t.

(** *** Stop mode *)

Definition is_halt (e : Event) : bool :=
  match e with E_HAL_PWR_EnterSTOPMode _ _ => true | _ => false end.
Definition is_EncoderInit (e : Event) : bool :=
  match e with E_EncoderInit => true | _ => false end.

(** *** Identification *)

(** The 32-bit word stored least significant byte first. *)
Definition le32 (b0 b1 b2 b3 : Z) : Z :=
  b0 + 256 * b1 + 65536 * b2 + 16777216 * b3.

Definition is_word (x : Z) : Prop := 0 <= x < 4294967296.

(** ** Reasoning about runs *)

(** [wp m Q s]: the run of [m] from [s] satisfies [Q].  The rules below
    follow a run statement by statement; a wait and a test on something
    the run does not determine split it. *)
Definition wp {A} (m : M A) (Q : Result A -> Prop) (s : State) : Prop :=
  Q (m s).

Lemma wp_bind {A B} (m : M A) (f : A -> M B) (Q : Result B -> Prop) s :
  wp m (fun r =>
          match r with
          | Returns a s1 t1 => wp (f a) (fun r' => Q (after t1 r')) s1
          | NoReturn s1 t1 => Q (NoReturn s1 t1)
          end) s ->
  wp (x <- m ;; f x) Q s.
Proof. unfold wp. cbn. unfold M_bind. destruct (m s); auto. Qed.

Lemma wp_ret {A} (a : A) (Q : Result A -> Prop) s :
  Q (Returns a s []) -> wp (ret a) Q s.
Proof. auto. Qed.

Lemma wp_emit (e : Event) (Q : Result unit -> Prop) s :
  Q (Returns tt s [e]) -> wp (emit e) Q s.
Proof. auto. Qed.

Lemma wp_update (f : State -> State) (Q : Result unit -> Prop) s :
  Q (Returns tt (f s) []) -> wp (update f) Q s.
Proof. auto. Qed.

Lemma wp_get {A} (f : State -> A) (Q : Result A -> Prop) s :
  Q (Returns (f s) s []) -> wp (get f) Q s.
Proof. auto. Qed.

Lemma wp_forever {A} (Q : Result A -> Prop) s :
  Q (NoReturn s []) -> wp forever Q s.
Proof. auto. Qed.

Lemma wp_hal_status (fn : HalRoutine) (Q : Result HAL_StatusTypeDef -> Prop) s :
  Q (Returns (hw_status hw (calls s)) (next_call s)
       [E_HAL_Status fn (hw_status hw (calls s))]) ->
  wp (hal_status fn) Q s.
Proof. auto. Qed.

Lemma wp_await (c : Condition) (seen : State -> State)
  (Q : Result unit -> Prop) s :
  (forall k, hw_polls hw (waits s) = Some k ->
             Q (Returns tt (seen (next_wait s)) [E_Observed c k])) ->
  (hw_polls hw (waits s) = None -> Q (NoReturn (next_wait s) [])) ->
  wp (await c seen) Q s.
Proof.
  unfold wp, await. intros HS HN.
  destruct (hw_polls hw (waits s)); auto.
Qed.

Lemma wp_await_Some (c : Condition) (seen : State -> State)
  (Q : Result unit -> Prop) s k :
  hw_polls hw (waits s) = Some k ->
  Q (Returns tt (seen (next_wait s)) [E_Observed c k]) ->
  wp (await c seen) Q s.
Proof. unfold wp, await. intros ->. auto. Qed.

Lemma wp_await_None (c : Condition) (seen : State -> State)
  (Q : Result unit -> Prop) s :
  hw_polls hw (waits s) = None ->
  Q (NoReturn (next_wait s) []) ->
  wp (await c seen) Q s.
Proof. unfold wp, await. intros ->. auto. Qed.

Ltac head_of t :=
  lazymatch t with
  | ?f _ => head_of f
  | _ => t
  end.

(** A test: decided by computation or by a fact at hand, else split. *)
Ltac wp_case x :=
  let x' := eval cbn in x in
  first
    [ progress (change x with x')
    | match goal with
      | H : ?l = _ |- _ =>
          lazymatch x with context [l] => rewrite H end
      end
    | let E := fresh "Hcase" in
      lazymatch x with
      | eqb ?b false => destruct b eqn:E
      | negb ?b => destruct b eqn:E
      | _ => destruct x eqn:E
      end ].

Ltac wp_step :=
  lazymatch goal with
  | |- wp (bind _ _) _ _ => apply wp_bind
  | |- wp (ret _) _ _ => apply wp_ret
  | |- wp (emit _) _ _ => apply wp_emit
  | |- wp (update _) _ _ => apply wp_update
  | |- wp (get _) _ _ => apply wp_get
  | |- wp forever _ _ => apply wp_forever
  | |- wp (hal_status _) _ _ => apply wp_hal_status
  | |- wp (await _ _) _ ?s =>
      let n := eval cbn in (waits s) in
      lazymatch goal with
      | H : hw_polls hw n = Some ?v |- _ =>
          apply wp_await_Some with (k := v); [exact H |]
      | H : hw_polls hw n = None |- _ => apply wp_await_None; [exact H |]
      | _ =>
          let k := fresh "k" in
          let H := fresh "Hpoll" in
          apply wp_await; [ intros k H | intros H ]; cbn in H
      end
  | |- wp (match ?x with _ => _ end) _ _ => wp_case x
  | |- wp ?m ?Q ?s =>
      let h := head_of m in
      let m' := eval cbv beta delta [h] in m in
      change (wp m' Q s)
  end.

(** Run [m] to the end of every path. *)
Ltac wp_run :=
  repeat first [ progress cbn [after] | wp_step ].

(** Start from a goal that mentions [m s] once. *)
Ltac wp_start m s :=
  pattern (m s);
  lazymatch goal with |- ?Q (m s) => change (wp m Q s) end.


(** A run given as an equation with [Returns]: follow it, drop the paths
    that do not return, read state and trace off the others. *)
Ltac wp_returns m s H :=
  revert H; wp_start m s; wp_run;
  intros H; try discriminate H;
  inversion H; subst; clear H.

Ltac leaf := cbn -[Z.div Z.testbit].

Lemma HAL_Status_eqb_eq (a b : HAL_StatusTypeDef) :
  HAL_Status_eqb a b = true <-> a = b.
Proof. destruct a, b; cbn; split; congruence. Qed.

Lemma bind_Returns_inv {A B} (m : M A) (f : A -> M B) s b s' t :
  (x <- m ;; f x) s = Returns b s' t ->
  exists a s1 t1 t2,
    m s = Returns a s1 t1 /\ f a s1 = Returns b s' t2 /\ t = t1 ++ t2.
Proof.
  cbn. unfold M_bind. destruct (m s) as [a s1 t1 | s1 t1]; [| discriminate].
  destruct (f a s1) as [b' s2 t2 | s2 t2] eqn:Hf; [| discriminate].
  cbn. intros H. inversion H; subst. exists a, s1, t1, t2. auto.
Qed.

Lemma bind_Returns {A B} (m : M A) (f : A -> M B) s a s1 t1 :
  m s = Returns a s1 t1 -> (x <- m ;; f x) s = after t1 (f a s1).
Proof. intros H. cbn. unfold M_bind. rewrite H. reflexivity. Qed.

Lemma bind_NoReturn {A B} (m : M A) (f : A -> M B) s s1 t1 :
  m s = NoReturn s1 t1 -> (x <- m ;; f x) s = NoReturn s1 t1.
Proof. intros H. cbn. unfold M_bind. rewrite H. reflexivity. Qed.

Lemma count_app (p : Event -> bool) (t1 t2 : list Event) :
  count p (t1 ++ t2) = (count p t1 + count p t2)%nat.
Proof. unfold count. rewrite filter_app, length_app. reflexivity. Qed.

Lemma count_none (p : Event -> bool) (t : list Event) :
  existsb p t = false -> count p t = 0%nat.
Proof.
  unfold count. induction t as [| e t IH]; cbn; [reflexivity |].
  intros H. apply orb_false_iff in H. destruct H as [He Ht].
  rewrite He. auto.
Qed.

Lemma State_ext (a b : State) :
  McuInitialized a = McuInitialized b ->
  SystemWakeupTimeCalibrated a = SystemWakeupTimeCalibrated b ->
  PRIMASK a = PRIMASK b ->
  clock a = clock b ->
  waits a = waits b ->
  calls a = calls b ->
  a = b.
Proof. destruct a, b; cbn; intros; subst; reflexivity. Qed.

(** *** Critical section *)

(** C5.  [BoardCriticalSectionBegin] stores the interrupt mask in the token
    and masks interrupts; [BoardCriticalSectionEnd] with that token, from
    whatever state is reached in between, puts the mask back to its value
    before Begin, was it set or clear.  Nothing else changes. *)
Theorem critical_section_pairing (s : State) :
  exists mask s1 t1,
    BoardCriticalSectionBegin s = Returns mask s1 t1 /\
    mask = (if PRIMASK s then 1 else 0) /\
    s1 = set_PRIMASK_bit true s /\
    PRIMASK s1 = true /\
    forall s2, exists t3,
      BoardCriticalSectionEnd mask s2
      = Returns tt (set_PRIMASK_bit (PRIMASK s) s2) t3 /\
      PRIMASK (set_PRIMASK_bit (PRIMASK s) s2) = PRIMASK s.
Proof.
  exists (if PRIMASK s then 1 else 0), (set_PRIMASK_bit true s),
    [E_get_PRIMASK (if PRIMASK s then 1 else 0); E_disable_irq].
  repeat split.
  intros s2. exists [E_set_PRIMASK (if PRIMASK s then 1 else 0)].
  split; [| reflexivity].
  unfold BoardCriticalSectionEnd, __set_PRIMASK. cbn.
  destruct (PRIMASK s); reflexivity.
Qed.

(** *** Stop mode entry *)

(** C3 (amended).  In every run of [LpmEnterStopMode] the teardown of
    ADC and radio, the oscillator pins, and then the PVD, wake-flag,
    ultra-low-power and fast-wake-up settings all execute inside the one
    critical section, in this order; the halt with the low-power regulator
    is the first event after the critical section ends. *)
Theorem LpmEnterStopMode_order (s : State) :
  stop_entry_as_coded (trace_of (LpmEnterStopMode s)).
Proof.
  unfold stop_entry_as_coded.
  wp_start LpmEnterStopMode s. wp_run.
  - exists [E_Observed WakeupEvent k]. split; [reflexivity | eauto].
  - exists []. split; [reflexivity | auto].
Qed.

(** *** Calibration *)

Lemma CalibrateSystemWakeupTime_returns (s s1 : State) (t1 : list Event) :
  SystemWakeupTimeCalibrated s = false ->
  CalibrateSystemWakeupTime s = Returns tt s1 t1 ->
  exists k,
    hw_polls hw (waits s) = Some k /\
    s1 = set_SystemWakeupTimeCalibrated true (next_wait s) /\
    t1 = calibration_trace k.
Proof.
  intros Hcal Hrun. wp_returns CalibrateSystemWakeupTime s Hrun. eauto.
Qed.


(** C4.  When a first call of [CalibrateSystemWakeupTime] from the
    uncalibrated state returns, it has initialised the timer, set it to
    1000 and started it once each, the callback has run and set the flag;
    a second call then returns at once, in the same state, with no event. *)
Theorem calibration_guard (s s1 : State) (t1 : list Event) :
  SystemWakeupTimeCalibrated s = false ->
  CalibrateSystemWakeupTime s = Returns tt s1 t1 ->
  (exists k, t1 = calibration_trace k) /\
  SystemWakeupTimeCalibrated s1 = true /\
  CalibrateSystemWakeupTime s1 = Returns tt s1 [] /\
  forall st, In st [Step_TimerInit; Step_TimerSetValue; Step_TimerStart] ->
    count (step_marker st)
      (t1 ++ trace_of (CalibrateSystemWakeupTime s1)) = 1%nat.
Proof.
  intros Hcal Hrun.
  destruct (CalibrateSystemWakeupTime_returns s s1 t1 Hcal Hrun)
    as (k & _ & -> & ->).
  assert (Hagain :
    CalibrateSystemWakeupTime
      (set_SystemWakeupTimeCalibrated true (next_wait s))
    = Returns tt (set_SystemWakeupTimeCalibrated true (next_wait s)) [])
    by reflexivity.
  split; [exists k; reflexivity |].
  split; [reflexivity |].
  split; [exact Hagain |].
  rewrite Hagain.
  intros st [<- | [<- | [<- | []]]]; reflexivity.
Qed.

(** *** Clock sequences *)

(** C2.  In every run of the cold sequence and of the resume sequence,
    complete or not, the PLL is enabled only after the oscillator-ready
    flag was seen set, and the system clock is switched to the PLL only
    after the PLL-ready flag was seen set; a run that returns has done
    both steps. *)
Theorem clock_ordering (s : State) :
  (clock_order (trace_of (SystemClockConfig s)) = true /\
   clock_order (trace_of (SystemClockReConfig s)) = true) /\
  (returns (SystemClockConfig s) = true ->
   existsb is_PLL_ENABLE (trace_of (SystemClockConfig s)) = true /\
   existsb is_SYSCLK_PLL (trace_of (SystemClockConfig s)) = true) /\
  (returns (SystemClockReConfig s) = true ->
   existsb is_PLL_ENABLE (trace_of (SystemClockReConfig s)) = true /\
   existsb is_SYSCLK_PLL (trace_of (SystemClockReConfig s)) = true).
Proof.
  split; [split |]; [| | split].
  - wp_start SystemClockConfig s. wp_run; reflexivity.
  - wp_start SystemClockReConfig s. wp_run; reflexivity.
  - wp_start SystemClockConfig s.
    wp_run; intros H; try discriminate H; split; reflexivity.
  - wp_start SystemClockReConfig s.
    wp_run; intros H; try discriminate H; split; reflexivity.
Qed.


(** *** The resume sequence *)

Lemma SystemClockReConfig_returns (s s1 : State) (t : list Event) :
  SystemClockReConfig s = Returns tt s1 t ->
  McuInitialized s1 = McuInitialized s /\
  SystemWakeupTimeCalibrated s1 = SystemWakeupTimeCalibrated s /\
  PRIMASK s1 = PRIMASK s /\
  clock_running (clock s1) = true /\
  SWS (clock s1) = CLK_PLL /\
  exists t0 p, t = t0 ++ [E_Observed (SYSCLK_SOURCE_is CLK_PLL) p].
Proof.
  intros Hrun. wp_returns SystemClockReConfig s Hrun.
  repeat split.
  eexists [_; _; _; _; _; _; _; _; _], _. reflexivity.
Qed.

Lemma SystemClockReConfig_total (s : State) :
  hw_responsive -> returns (SystemClockReConfig s) = true.
Proof.
  intros Hresp. wp_start SystemClockReConfig s. wp_run;
    try reflexivity; exfalso; eapply Hresp; eassumption.
Qed.

Lemma iterate_SystemClockReConfig (k : nat) :
  hw_responsive ->
  forall s, exists s' t,
    iterate (S k) SystemClockReConfig s = Returns tt s' t /\
    clock_running (clock s') = true /\
    SWS (clock s') = CLK_PLL /\
    exists t0 p, t = t0 ++ [E_Observed (SYSCLK_SOURCE_is CLK_PLL) p].
Proof.
  intros Hresp. induction k as [| k IH]; intros s.
  - pose proof (SystemClockReConfig_total s Hresp) as Hret.
    destruct (SystemClockReConfig s) as [[] s1 t1 | s1 t1] eqn:Hrun;
      [| discriminate Hret].
    destruct (SystemClockReConfig_returns _ _ _ Hrun)
      as (_ & _ & _ & Hclk & Hsws & t0 & p & ->).
    exists s1, ((t0 ++ [E_Observed (SYSCLK_SOURCE_is CLK_PLL) p]) ++ []).
    split.
    + change (iterate 1 SystemClockReConfig)
        with (SystemClockReConfig ;; ret tt).
      rewrite (bind_Returns _ _ _ _ _ _ Hrun). reflexivity.
    + repeat split; auto. exists t0, p. apply app_nil_r.
  - pose proof (SystemClockReConfig_total s Hresp) as Hret.
    destruct (SystemClockReConfig s) as [[] s1 t1 | s1 t1] eqn:Hrun;
      [| discriminate Hret].
    destruct (IH s1) as (s' & t & Hit & Hclk & Hsws & t0 & p & ->).
    exists s', (t1 ++ t0 ++ [E_Observed (SYSCLK_SOURCE_is CLK_PLL) p]).
    split.
    + change (iterate (S (S k)) SystemClockReConfig)
        with (SystemClockReConfig ;; iterate (S k) SystemClockReConfig).
      rewrite (bind_Returns _ _ _ _ _ _ Hrun), Hit. reflexivity.
    + repeat split; auto. exists (t1 ++ t0), p. apply app_assoc.
Qed.

(** C6.  On hardware whose ready flags are eventually seen, each of [N]
    consecutive calls of [SystemClockReConfig] returns; after the [k]-th,
    for every [k] from 1 to [N], oscillator and PLL are on and ready, the
    PLL is selected, and the last thing read is the status field reporting
    the PLL as system clock. *)
Theorem resume_sequence_idempotent (N : nat) (s : State) :
  hw_responsive ->
  (1 <= N)%nat ->
  forall k, (1 <= k <= N)%nat ->
  exists s' t,
    iterate k SystemClockReConfig s = Returns tt s' t /\
    clock_running (clock s') = true /\
    SWS (clock s') = CLK_PLL /\
    exists t0 p, t = t0 ++ [E_Observed (SYSCLK_SOURCE_is CLK_PLL) p].
Proof.
  intros Hresp _ k [Hk _]. destruct k as [| k]; [lia |].
  apply iterate_SystemClockReConfig. exact Hresp.
Qed.

(** *** Failure of a cold clock configuration step *)

(** C7 (amended).  In a build with [USE_FULL_ASSERT], whenever a HAL
    routine of [SystemClockConfig] has reported a status other than
    [HAL_OK], the function does not return, and its trace ends with that
    report followed by the message of [assert_failed]: no later step, no
    second attempt. *)
Theorem cold_clock_failure_traps (s : State) (fn : HalRoutine)
  (st : HAL_StatusTypeDef) :
  USE_FULL_ASSERT cfg = true ->
  In (E_HAL_Status fn st) (trace_of (SystemClockConfig s)) ->
  st <> HAL_OK ->
  returns (SystemClockConfig s) = false /\
  exists line,
    last_two (trace_of (SystemClockConfig s))
    = Some (E_HAL_Status fn st, E_printf_wrong_parameters line).
Proof.
  intros Hfa. wp_start SystemClockConfig s. wp_run; leaf; intros Hin Hne;
    repeat match goal with
      | H : HAL_Status_eqb _ _ = true |- _ => apply HAL_Status_eqb_eq in H
      end;
    repeat (destruct Hin as [Hin | Hin];
            [ try discriminate Hin; injection Hin as <- <-;
              first [ congruence
                    | split; [reflexivity | eexists; reflexivity] ]
            | ]);
    contradiction Hin.
Qed.

(** *** ADC and radio *)

(** C8.  Every call of [BoardInitMcu] that returns, from whatever state,
    has initialised the ADC, the radio SPI bus and the radio I/O pins, in
    this order. *)
Theorem adc_and_radio_rebuilt (s s' : State) (t : list Event) :
  BoardInitMcu s = Returns tt s' t ->
  exists pre post, t = pre ++ adc_and_radio_init ++ post.
Proof.
  unfold BoardInitMcu. intros H.
  apply bind_Returns_inv in H as (init & s0 & t0 & ? & _ & H & ->).
  apply bind_Returns_inv in H as (? & s1 & t1 & ? & _ & H & ->).
  apply bind_Returns_inv in H as (? & s2 & t2 & ? & Hadc & H & ->).
  apply bind_Returns_inv in H as (? & s3 & t3 & ? & Hspi & H & ->).
  apply bind_Returns_inv in H as (? & s4 & t4 & post & Hio & H & ->).
  inversion Hadc; inversion Hspi; inversion Hio; subst.
  exists (t0 ++ t1), post. rewrite <- app_assoc. reflexivity.
Qed.

(** *** Resume branch and Stop exit *)

Lemma BoardInitMcu_warm (s : State) :
  McuInitialized s = true -> BoardInitMcu s = resume_path s.
Proof.
  intros Hinit. wp_start BoardInitMcu s. wp_run;
    (wp_start resume_path s; wp_run; reflexivity).
Qed.

Lemma resume_path_facts (s : State) :
  McuInitialized s = true ->
  McuInitialized (final (resume_path s)) = true /\
  SystemWakeupTimeCalibrated (final (resume_path s))
  = SystemWakeupTimeCalibrated s /\
  existsb cold_only (trace_of (resume_path s)) = false /\
  (returns (resume_path s) = true ->
   clock_running (clock (final (resume_path s))) = true).
Proof.
  intros Hinit. wp_start resume_path s. wp_run;
    (repeat split; try assumption; try reflexivity; discriminate).
Qed.

Lemma resume_path_total (s : State) :
  hw_responsive -> returns (resume_path s) = true.
Proof.
  intros Hresp. wp_start resume_path s. wp_run;
    try reflexivity; exfalso; eapply Hresp; eassumption.
Qed.

(** C9.  From a state with [McuInitialized] set, [BoardInitMcu] is the
    resume path, and [LpmExitStopMode] is that same run wrapped in one
    critical section: it ends in the same state as [BoardInitMcu] called
    directly, with the same events in between the two events of the
    critical section, the clock running and the lifecycle flag still set;
    no step of the cold branch executes.  [LpmEnterStopMode] leaves the
    flag set, so this holds after each Stop entry and wake-up. *)
Theorem LpmExitStopMode_resumes (s : State) :
  McuInitialized s = true ->
  BoardInitMcu s = resume_path s /\
  match BoardInitMcu s with
  | Returns _ s1 t1 =>
      LpmExitStopMode s
      = Returns tt s1
          (E_get_PRIMASK (mask_of s) :: E_disable_irq :: t1
           ++ [E_set_PRIMASK (mask_of s)]) /\
      critical_section (trace_of (LpmExitStopMode s)) = Some (t1, []) /\
      McuInitialized s1 = McuInitialized s /\
      SystemWakeupTimeCalibrated s1 = SystemWakeupTimeCalibrated s /\
      clock_running (clock s1) = true
  | NoReturn s1 t1 =>
      LpmExitStopMode s
      = NoReturn (set_PRIMASK_bit true s1)
          (E_get_PRIMASK (mask_of s) :: E_disable_irq :: t1) /\
      McuInitialized s1 = McuInitialized s
  end /\
  existsb cold_only (trace_of (LpmExitStopMode s)) = false /\
  McuInitialized (final (LpmEnterStopMode s)) = true.
Proof.
  intros Hinit. split; [apply BoardInitMcu_warm; exact Hinit |].
  split; [| split].
  - wp_start BoardInitMcu s. wp_run;
      (wp_start LpmExitStopMode s; wp_run; unfold mask_of;
       destruct (PRIMASK s) eqn:Hmask; repeat split;
       first [ assumption | reflexivity
             | apply (f_equal2 (Returns tt));
               [apply State_ext; cbn; congruence | reflexivity]
             | apply (f_equal2 NoReturn);
               [apply State_ext; cbn; congruence | reflexivity] ]).
  - wp_start LpmExitStopMode s. wp_run; reflexivity.
  - wp_start LpmEnterStopMode s. wp_run; exact Hinit.
Qed.

(** *** Cold boot *)

Lemma BoardInitMcu_cold_returns (s s' : State) (t : list Event) :
  McuInitialized s = false ->
  BoardInitMcu s = Returns tt s' t ->
  McuInitialized s' = true /\
  SystemWakeupTimeCalibrated s' = true /\
  clock_running (clock s') = true /\
  existsb is_USB_DM_analog t = true /\
  existsb is_USB_DP_analog t = true /\
  existsb (step_marker Step_LpmSetOffMode) t = true /\
  (SystemWakeupTimeCalibrated s = false ->
   forall st, count (step_marker st) t = 1%nat).
Proof.
  intros Hinit Hrun. wp_returns BoardInitMcu s Hrun.
  all: (repeat split;
     first [ reflexivity | assumption
           | intros Hcal;
             first [ congruence | intros st; destruct st; reflexivity ] ]).
Qed.

Lemma BoardInitMcu_cold_facts (s : State) :
  McuInitialized s = false ->
  (forall st,
     Nat.leb (count (step_marker st) (trace_of (BoardInitMcu s))) 1 = true) /\
  (hw_responsive -> hw_all_ok -> returns (BoardInitMcu s) = true).
Proof.
  intros Hinit. wp_start BoardInitMcu s. wp_run;
    (split;
     [ intros st; destruct st; reflexivity
     | intros Hresp Hok;
       repeat match goal with
         | H : HAL_Status_eqb (hw_status hw ?n) HAL_OK = false |- _ =>
             rewrite (Hok n) in H; discriminate H
         | H : hw_polls hw ?n = None |- _ => destruct (Hresp n H)
         end;
       reflexivity ]).
Qed.

Lemma step_marker_cold_only (st : ColdStep) (e : Event) :
  step_marker st e = true -> cold_only e = true.
Proof.
  intros H. unfold cold_only. apply existsb_exists. exists st.
  split; [| exact H]. destruct st; cbn; tauto.
Qed.

Lemma count_cold_free (st : ColdStep) (t : list Event) :
  existsb cold_only t = false -> count (step_marker st) t = 0%nat.
Proof.
  intros H. apply count_none.
  induction t as [| e t IH]; [reflexivity |].
  change (cold_only e || existsb cold_only t = false) in H.
  change (step_marker st e || existsb (step_marker st) t = false).
  apply orb_false_iff in H. destruct H as [He Ht].
  rewrite (IH Ht), orb_false_r.
  destruct (step_marker st e) eqn:Hm; [| reflexivity].
  rewrite (step_marker_cold_only _ _ Hm) in He. discriminate He.
Qed.

Lemma count_one_existsb (p : Event -> bool) (t : list Event) :
  count p t = 1%nat -> existsb p t = true.
Proof.
  destruct (existsb p t) eqn:H; [reflexivity |].
  rewrite (count_none _ _ H). discriminate.
Qed.

Lemma iterate_S (m : M unit) (n : nat) (s : State) :
  iterate (S n) m s =
  match m s with
  | Returns _ s1 t1 => after t1 (iterate n m s1)
  | NoReturn s1 t1 => NoReturn s1 t1
  end.
Proof. reflexivity. Qed.

Lemma trace_of_after {A} (t : list Event) (r : Result A) :
  trace_of (after t r) = t ++ trace_of r.
Proof. destruct r; reflexivity. Qed.

Lemma final_after {A} (t : list Event) (r : Result A) :
  final (after t r) = final r.
Proof. destruct r; reflexivity. Qed.

Lemma returns_after {A} (t : list Event) (r : Result A) :
  returns (after t r) = returns r.
Proof. destruct r; reflexivity. Qed.

(** Once [McuInitialized] is set, any number of calls stays on the resume
    path. *)
Lemma iterate_warm (n : nat) :
  forall s, McuInitialized s = true ->
    iterate n BoardInitMcu s = iterate n resume_path s /\
    McuInitialized (final (iterate n resume_path s)) = true /\
    SystemWakeupTimeCalibrated (final (iterate n resume_path s))
    = SystemWakeupTimeCalibrated s /\
    existsb cold_only (trace_of (iterate n resume_path s)) = false /\
    (hw_responsive -> returns (iterate n resume_path s) = true).
Proof.
  induction n as [| n IH]; intros s Hinit.
  - repeat split; assumption.
  - rewrite !iterate_S, (BoardInitMcu_warm s Hinit).
    destruct (resume_path_facts s Hinit) as (Hi & Hc & Hcold & _).
    pose proof (resume_path_total s) as Htot.
    destruct (resume_path s) as [[] s1 t1 | s1 t1]; cbn in Hi, Hc, Hcold, Htot.
    + destruct (IH s1 Hi) as (-> & Hi' & Hc' & Hcold' & Htot').
      rewrite final_after, trace_of_after, returns_after, existsb_app.
      rewrite Hcold, Hcold', Hi', Hc', Hc. auto.
    + repeat split; auto.
Qed.

Lemma run_keeps_McuInitialized (op : Operation) (s : State) :
  McuInitialized s = true -> McuInitialized (final (run op s)) = true.
Proof.
  intros Hinit.
  destruct op;
    match goal with |- context [run ?o s] => wp_start (run o) s end;
    wp_run; first [ exact Hinit | reflexivity ].
Qed.

(** C1.  Start from the reset values of the two flags and call
    [BoardInitMcu] [N] times, [N >= 1].  The first call takes the cold
    branch and every later call is the resume path.  Whatever the hardware
    does, no step of the cold branch and no step of the calibration
    executes more than once; when the calls return each of them has executed
    exactly once, and [McuInitialized] and the calibration flag are set.
    On hardware where every wait ends and every HAL call succeeds the calls
    do return.  No operation of board.c clears [McuInitialized] once it is
    set. *)
Theorem single_cold_boot (N : nat) (s : State) :
  McuInitialized s = false ->
  SystemWakeupTimeCalibrated s = false ->
  (1 <= N)%nat ->
  iterate N BoardInitMcu s
  = (BoardInitMcu ;; iterate (N - 1) resume_path) s /\
  (forall st,
     (count (step_marker st) (trace_of (iterate N BoardInitMcu s)) <= 1)%nat) /\
  (returns (iterate N BoardInitMcu s) = true ->
   (forall st,
      count (step_marker st) (trace_of (iterate N BoardInitMcu s)) = 1%nat) /\
   McuInitialized (final (iterate N BoardInitMcu s)) = true /\
   SystemWakeupTimeCalibrated (final (iterate N BoardInitMcu s)) = true) /\
  (hw_responsive -> hw_all_ok ->
   returns (iterate N BoardInitMcu s) = true) /\
  (forall op s0,
     McuInitialized s0 = true -> McuInitialized (final (run op s0)) = true).
Proof.
  intros Hinit Hcal HN. destruct N as [| n]; [lia |].
  replace (S n - 1)%nat with n by lia.
  destruct (BoardInitMcu_cold_facts s Hinit) as (Hle & Htot).
  assert (Hsame : iterate (S n) BoardInitMcu s
                  = (BoardInitMcu ;; iterate n resume_path) s).
  { rewrite iterate_S.
    destruct (BoardInitMcu s) as [[] s1 t1 | s1 t1] eqn:Hrun.
    - destruct (BoardInitMcu_cold_returns _ _ _ Hinit Hrun) as (Hi & _).
      destruct (iterate_warm n s1 Hi) as (-> & _).
      rewrite (bind_Returns _ _ _ _ _ _ Hrun). reflexivity.
    - rewrite (bind_NoReturn _ _ _ _ _ Hrun). reflexivity. }
  split; [exact Hsame |].
  rewrite iterate_S.
  destruct (BoardInitMcu s) as [[] s1 t1 | s1 t1] eqn:Hrun.
  - destruct (BoardInitMcu_cold_returns _ _ _ Hinit Hrun)
      as (Hi & Hc & _ & _ & _ & _ & Hone).
    destruct (iterate_warm n s1 Hi) as (-> & Hi' & Hc' & Hcold & Htot').
    rewrite trace_of_after, final_after, returns_after.
    assert (Hcount : forall st,
      count (step_marker st) (t1 ++ trace_of (iterate n resume_path s1))
      = 1%nat).
    { intros st. rewrite count_app, (Hone Hcal st), (count_cold_free _ _ Hcold).
      reflexivity. }
    repeat split.
    + intros st. rewrite Hcount. lia.
    + apply Hcount.
    + exact Hi'.
    + rewrite Hc'. exact Hc.
    + intros Hresp _. apply Htot'. exact Hresp.
    + apply run_keeps_McuInitialized.
  - cbn [trace_of returns final]. repeat split.
    + intros st. apply Nat.leb_le, (Hle st).
    + discriminate.
    + discriminate.
    + discriminate.
    + exact Htot.
    + apply run_keeps_McuInitialized.
Qed.

(** *** Power source *)

(** C10.  [GetBoardPowerSource] returns [BATTERY_POWER] in every state.
    So every cold boot that returns has put the USB lines in analog mode
    (first thing [BoardUnusedIoInit] does), has disabled the off mode of
    the low-power manager, and, the calibration flag being clear as after
    reset, has armed the calibration timer and served its callback; the
    calibration flag is set on return. *)
Theorem battery_power_only (s s' : State) (t : list Event) :
  McuInitialized s = false ->
  BoardInitMcu s = Returns tt s' t ->
  (forall s0, GetBoardPowerSource s0 = Returns BATTERY_POWER s0 []) /\
  (forall s0, exists t',
     BoardUnusedIoInit s0 = Returns tt s0 (usb_lines_analog ++ t')) /\
  existsb is_USB_DM_analog t = true /\
  existsb is_USB_DP_analog t = true /\
  existsb (step_marker Step_LpmSetOffMode) t = true /\
  SystemWakeupTimeCalibrated s' = true /\
  (SystemWakeupTimeCalibrated s = false ->
   existsb (step_marker Step_TimerStart) t = true /\
   existsb (step_marker Step_RtcSetMcuWakeUpTime) t = true).
Proof.
  intros Hinit Hrun.
  destruct (BoardInitMcu_cold_returns _ _ _ Hinit Hrun)
    as (_ & Hc & _ & Hdm & Hdp & Hoff & Hone).
  split; [reflexivity |].
  split.
  { intros s0. wp_start BoardUnusedIoInit s0. wp_run;
      eexists; reflexivity. }
  repeat split; try assumption;
    apply count_one_existsb, Hone; assumption.
Qed.

(** ** Further properties of board.c *)

(** As [wp_start], with the statement about the run kept folded while the
    run is followed; [wp_leaf] unfolds it at the end of a path. *)
Ltac wp_begin m s :=
  pattern (m s);
  lazymatch goal with
  | |- ?Q (m s) =>
      let P := fresh "Post" in
      set (P := Q); change (wp m P s)
  end.

Ltac wp_leaf :=
  match goal with
  | P := _ |- _ => subst P; cbv beta
  end.

(** *** Device identification *)

Lemma lxor_word (a b : Z) : is_word a -> is_word b -> is_word (Z.lxor a b).
Proof.
  unfold is_word. intros Ha Hb. split; [apply Z.lxor_nonneg; lia |].
  destruct (Z.eq_dec (Z.lxor a b) 0) as [-> | Hne]; [lia |].
  assert (Hla : Z.log2 a < 32)
    by (destruct (Z.eq_dec a 0) as [-> |];
        [cbn; lia | apply Z.log2_lt_pow2; lia]).
  assert (Hlb : Z.log2 b < 32)
    by (destruct (Z.eq_dec b 0) as [-> |];
        [cbn; lia | apply Z.log2_lt_pow2; lia]).
  pose proof (Z.lxor_nonneg a b) as Hnn.
  pose proof (Z.log2_lxor a b ltac:(lia) ltac:(lia)) as Hl.
  apply (Z.log2_lt_pow2 _ 32); lia.
Qed.

Lemma lxor_cancel_r (a b c : Z) : Z.lxor a c = Z.lxor b c -> a = b.
Proof.
  intros H. apply (f_equal (fun x => Z.lxor x c)) in H.
  rewrite !Z.lxor_assoc, Z.lxor_nilpotent, !Z.lxor_0_r in H. exact H.
Qed.

(** X1.  The seed is a 32-bit word; it changes whenever exactly one of the
    three ID words changes; it does not depend on the order of the three
    words, so devices whose ID words are permutations of each other get the
    same seed. *)
Theorem BoardGetRandomSeed_words (id1 id2 id3 : Z) :
  is_word id1 -> is_word id2 -> is_word id3 ->
  is_word (BoardGetRandomSeed id1 id2 id3) /\
  (forall x, BoardGetRandomSeed x id2 id3 = BoardGetRandomSeed id1 id2 id3 ->
             x = id1) /\
  (forall x, BoardGetRandomSeed id1 x id3 = BoardGetRandomSeed id1 id2 id3 ->
             x = id2) /\
  (forall x, BoardGetRandomSeed id1 id2 x = BoardGetRandomSeed id1 id2 id3 ->
             x = id3) /\
  BoardGetRandomSeed id2 id1 id3 = BoardGetRandomSeed id1 id2 id3 /\
  BoardGetRandomSeed id3 id2 id1 = BoardGetRandomSeed id1 id2 id3.
Proof.
  intros H1 H2 H3. unfold BoardGetRandomSeed.
  split; [auto using lxor_word |].
  split; [intros x H; apply lxor_cancel_r in H; apply lxor_cancel_r in H;
          exact H |].
  split; [intros x H; apply lxor_cancel_r in H;
          rewrite !(Z.lxor_comm id1) in H; apply lxor_cancel_r in H;
          exact H |].
  split; [intros x H; rewrite !(Z.lxor_comm _ x), !(Z.lxor_comm _ id3) in H;
          apply lxor_cancel_r in H; exact H |].
  split; [rewrite (Z.lxor_comm id2 id1); reflexivity |].
  rewrite (Z.lxor_comm id3 id2), Z.lxor_assoc, (Z.lxor_comm id3 id1),
    <- Z.lxor_assoc, (Z.lxor_comm id2 id1). reflexivity.
Qed.

Lemma le32_bytes (x : Z) :
  is_word x ->
  le32 (uint8 x) (uint8 (Z.shiftr x 8)) (uint8 (Z.shiftr x 16))
       (uint8 (Z.shiftr x 24)) = x.
Proof.
  unfold is_word, le32, uint8. intros Hx.
  rewrite !Z.shiftr_div_pow2 by lia.
  change (2 ^ 8) with 256. change (2 ^ 16) with 65536.
  change (2 ^ 24) with 16777216.
  Z.div_mod_to_equations. lia.
Qed.

Lemma uint32_word (x : Z) : is_word (uint32 x).
Proof. unfold is_word, uint32. apply Z.mod_pos_bound. lia. Qed.

Lemma uint8_byte (x : Z) : 0 <= uint8 x < 256.
Proof. unfold uint8. apply Z.mod_pos_bound. lia. Qed.

Lemma BoardGetUniqueId_bytes (id1 id2 id3 : Z) (id : list Z) :
  (8 <= length id)%nat ->
  BoardGetUniqueId id1 id2 id3 id
  = Some ([ uint8 id2; uint8 (Z.shiftr id2 8); uint8 (Z.shiftr id2 16);
            uint8 (Z.shiftr id2 24);
            uint8 (uint32 (id1 + id3));
            uint8 (Z.shiftr (uint32 (id1 + id3)) 8);
            uint8 (Z.shiftr (uint32 (id1 + id3)) 16);
            uint8 (Z.shiftr (uint32 (id1 + id3)) 24) ] ++ skipn 8 id).
Proof.
  intros Hlen.
  destruct id as [| a0 [| a1 [| a2 [| a3 [| a4 [| a5 [| a6 [| a7 rest]]]]]]]];
    cbn in Hlen; try lia.
  reflexivity.
Qed.

(** X2.  With a buffer of at least eight bytes, [BoardGetUniqueId] fills
    bytes 0 to 3 with the word at [ID2] and bytes 4 to 7 with the 32-bit sum
    of the words at [ID1] and [ID3], least significant byte first: reading
    the bytes back gives these two words.  Every byte written is below 256
    and the buffer beyond byte 7 is left as it was. *)
Theorem BoardGetUniqueId_round_trip (id1 id2 id3 : Z) (id : list Z) :
  is_word id1 -> is_word id2 -> is_word id3 ->
  (8 <= length id)%nat ->
  exists b0 b1 b2 b3 b4 b5 b6 b7,
    BoardGetUniqueId id1 id2 id3 id
    = Some ([b0; b1; b2; b3; b4; b5; b6; b7] ++ skipn 8 id) /\
    le32 b0 b1 b2 b3 = id2 /\
    le32 b4 b5 b6 b7 = uint32 (id1 + id3) /\
    Forall (fun b => 0 <= b < 256) [b0; b1; b2; b3; b4; b5; b6; b7].
Proof.
  intros H1 H2 H3 Hlen.
  do 8 eexists. split; [apply BoardGetUniqueId_bytes; exact Hlen |].
  split; [apply le32_bytes; exact H2 |].
  split; [apply le32_bytes, uint32_word |].
  repeat constructor; apply uint8_byte.
Qed.

(** X3.  Two devices get the same unique id exactly when their words at
    [ID2] agree and the sums of their words at [ID1] and [ID3] agree modulo
    2^32; in particular exchanging the words at [ID1] and [ID3] does not
    change the id. *)
Theorem BoardGetUniqueId_same_id (id1 id2 id3 id1' id2' id3' : Z)
  (id : list Z) :
  is_word id2 -> is_word id2' ->
  (8 <= length id)%nat ->
  (BoardGetUniqueId id1 id2 id3 id = BoardGetUniqueId id1' id2' id3' id
   <-> id2 = id2' /\ uint32 (id1 + id3) = uint32 (id1' + id3')) /\
  BoardGetUniqueId id3 id2 id1 id = BoardGetUniqueId id1 id2 id3 id.
Proof.
  intros H2 H2' Hlen. split; [split |].
  - rewrite !BoardGetUniqueId_bytes by exact Hlen. intros H.
    injection H as E0 E1 E2 E3 E4 E5 E6 E7.
    split.
    + rewrite <- (le32_bytes id2 H2), <- (le32_bytes id2' H2').
      congruence.
    + rewrite <- (le32_bytes _ (uint32_word (id1 + id3))),
        <- (le32_bytes _ (uint32_word (id1' + id3'))).
      congruence.
  - intros [-> Hsum]. unfold BoardGetUniqueId. rewrite Hsum. reflexivity.
  - unfold BoardGetUniqueId. rewrite (Z.add_comm id3 id1). reflexivity.
Qed.

(** *** Potentiometer *)

(** X4.  In a build without the encoder, the potentiometer level is a
    percentage between 0 and 100 that never decreases when the reading
    grows; it is 0 whenever the analog alarm is off, 100 from a reading of
    900 on, and at most 98 below that: the value 99 is never returned. *)
Theorem BoardGetPotiLevel_percentage (analog_alarm adc3 adc3' : Z) :
  USE_ENCODER_is_1 cfg = false ->
  0 <= BoardGetPotiLevel analog_alarm adc3 <= 100 /\
  BoardGetPotiLevel analog_alarm adc3 <> 99 /\
  (analog_alarm <= 0 -> BoardGetPotiLevel analog_alarm adc3 = 0) /\
  (0 < analog_alarm ->
   (900 <= uint16 adc3 <-> BoardGetPotiLevel analog_alarm adc3 = 100)) /\
  (uint16 adc3 <= uint16 adc3' ->
   BoardGetPotiLevel analog_alarm adc3
   <= BoardGetPotiLevel analog_alarm adc3').
Proof.
  intros Henc. unfold BoardGetPotiLevel, POTI_MAX_LEVEL, POTI_MIN_LEVEL.
  rewrite Henc.
  pose proof (Z.mod_pos_bound adc3 65536 ltac:(lia)) as Hr.
  pose proof (Z.mod_pos_bound adc3' 65536 ltac:(lia)) as Hr'.
  unfold uint16, uint8 in *.
  set (v := adc3 mod 65536) in *. set (v' := adc3' mod 65536) in *.
  destruct (Z.gtb_spec analog_alarm 0) as [Ha | Ha];
    destruct (Z.geb_spec v 900); destruct (Z.geb_spec v' 900);
    destruct (Z.leb_spec v 10); destruct (Z.leb_spec v' 10);
    cbn -[Z.quot Z.modulo];
    try rewrite (Z.quot_div_nonneg ((v - 10) * 100)) by lia;
    try rewrite (Z.quot_div_nonneg ((v' - 10) * 100)) by lia;
    repeat split; intros; try lia;
    Z.div_mod_to_equations; lia.
Qed.

(** *** Battery *)

Lemma div_below (a b q : Z) : 0 < b -> 0 <= a -> (a / b < q <-> a < b * q).
Proof.
  intros Hb Ha. split.
  - intros H. pose proof (Z.mul_succ_div_gt a b Hb). nia.
  - intros H. apply Z.div_lt_upper_bound; assumption.
Qed.

(** X5.  The measured battery voltage is the quotient of 1224 times the ADC
    full scale by the reference reading, cut to 16 bits.  It is the exact
    quotient precisely for readings from 77 on with the 12-bit full scale
    (from 20 on with the 10-bit one); for smaller non-zero readings the
    quotient does not fit and a smaller value is returned.  A reading of
    zero is a division by zero. *)
Theorem BoardBatteryMeasureVolage_exact (USE_ENCODER_defined : bool)
  (adc17 : Z) :
  (uint16 adc17 = 0 ->
   BoardBatteryMeasureVolage USE_ENCODER_defined adc17 = None) /\
  (uint16 adc17 <> 0 ->
   exists v,
     BoardBatteryMeasureVolage USE_ENCODER_defined adc17 = Some v /\
     0 <= v < 65536 /\
     v <= ADC_VREF_BANDGAP * ADC_MAX_VALUE USE_ENCODER_defined
          / uint16 adc17 /\
     (v = ADC_VREF_BANDGAP * ADC_MAX_VALUE USE_ENCODER_defined
          / uint16 adc17
      <-> (if USE_ENCODER_defined then 20 else 77) <= uint16 adc17)).
Proof.
  cbv zeta. unfold BoardBatteryMeasureVolage.
  pose proof (Z.mod_pos_bound adc17 65536 ltac:(lia)) as Hr.
  unfold uint16 in *. set (vref := adc17 mod 65536) in *.
  split.
  - intros ->. reflexivity.
  - intros Hne. destruct (Z.eqb_spec vref 0) as [| _]; [contradiction |].
    eexists. split; [reflexivity |].
    assert (Hfull :
      uint32 (uint32 ADC_VREF_BANDGAP * uint32 (ADC_MAX_VALUE USE_ENCODER_defined))
      = ADC_VREF_BANDGAP * ADC_MAX_VALUE USE_ENCODER_defined)
      by (destruct USE_ENCODER_defined; reflexivity).
    rewrite Hfull.
    set (full := ADC_VREF_BANDGAP * ADC_MAX_VALUE USE_ENCODER_defined).
    assert (Hq : 0 <= full / vref) by (apply Z.div_pos;
      [destruct USE_ENCODER_defined; cbv; discriminate | lia]).
    pose proof (Z.mod_pos_bound (full / vref) 65536 ltac:(lia)) as Hm.
    pose proof (Z.mod_le (full / vref) 65536 Hq ltac:(lia)) as Hle.
    split; [exact Hm |]. split; [exact Hle |].
    assert (Hlt : full / vref < 65536 <-> full < vref * 65536).
    { apply div_below; [lia |].
      destruct USE_ENCODER_defined; cbv; discriminate. }
    split.
    + intros Heq. rewrite <- Heq in Hlt.
      destruct Hlt as [Hlt _]. specialize (Hlt ltac:(lia)).
      subst full. destruct USE_ENCODER_defined;
        unfold ADC_VREF_BANDGAP, ADC_MAX_VALUE in Hlt; lia.
    + intros Hth. apply Z.mod_small. split; [exact Hq |].
      apply Hlt. subst full. destruct USE_ENCODER_defined;
        unfold ADC_VREF_BANDGAP, ADC_MAX_VALUE; lia.
Qed.

Lemma BoardGetBatteryLevel_run (USE_ENCODER_defined : bool) (adc17 : Z)
  (s : State) :
  (uint16 adc17 = 0 ->
   BoardGetBatteryLevel USE_ENCODER_defined adc17 s = Returns None s []) /\
  (uint16 adc17 <> 0 ->
   exists V level,
     BoardBatteryMeasureVolage USE_ENCODER_defined adc17 = Some V /\
     BoardGetBatteryLevel USE_ENCODER_defined adc17 s
     = Returns (Some (V, level)) s [] /\
     0 <= V < 65536 /\
     (3000 <= V /\ level = 254 \/
      2400 < V < 3000 /\ level = 253 * (V - 2400) / 600 + 1 \/
      2300 < V <= 2400 /\ level = 1 \/
      V <= 2300 /\ level = 255)).
Proof.
  unfold BoardGetBatteryLevel, BoardBatteryMeasureVolage.
  split.
  - intros ->. reflexivity.
  - intros Hne. destruct (Z.eqb_spec (uint16 adc17) 0) as [| _];
      [contradiction |].
    match goal with
    | |- context [Some (uint16 ?q)] => set (V := uint16 q)
    end.
    assert (HV : 0 <= V < 65536)
      by (apply Z.mod_pos_bound; lia).
    exists V. eexists. split; [reflexivity |].
    unfold BATTERY_MAX_LEVEL, BATTERY_MIN_LEVEL, BATTERY_SHUTDOWN_LEVEL, uint8.
    split; [reflexivity |]. split; [exact HV |].
    destruct (Z.geb_spec V 3000); [left; split; [lia | reflexivity] |].
    destruct (Z.gtb_spec V 2400); destruct (Z.ltb_spec V 3000);
      cbn [andb]; try lia.
    + right; left. split; [lia |].
      rewrite Z.quot_div_nonneg by lia.
      change (3000 - 2400) with 600.
      apply Z.mod_small. Z.div_mod_to_equations. lia.
    + destruct (Z.gtb_spec V 2300); destruct (Z.leb_spec V 2400);
        cbn [andb]; try lia.
      * right; right; left. split; [lia | reflexivity].
      * right; right; right. split; [lia | reflexivity].
Qed.

Lemma BoardGetBatteryLevel_inv (USE_ENCODER_defined : bool) (adc17 : Z)
  (s s' : State) (t : list Event) (V level : Z) :
  BoardGetBatteryLevel USE_ENCODER_defined adc17 s
  = Returns (Some (V, level)) s' t ->
  s' = s /\ t = [] /\
  BoardBatteryMeasureVolage USE_ENCODER_defined adc17 = Some V /\
  0 <= V < 65536 /\
  (3000 <= V /\ level = 254 \/
   2400 < V < 3000 /\ level = 253 * (V - 2400) / 600 + 1 \/
   2300 < V <= 2400 /\ level = 1 \/
   V <= 2300 /\ level = 255).
Proof.
  intros Hrun.
  destruct (BoardGetBatteryLevel_run USE_ENCODER_defined adc17 s)
    as [Hzero Hnz].
  destruct (Z.eq_dec (uint16 adc17) 0) as [Hz | Hz].
  - rewrite (Hzero Hz) in Hrun. discriminate Hrun.
  - destruct (Hnz Hz) as (V0 & l0 & Hm & Hr & HV & Hl).
    rewrite Hr in Hrun. injection Hrun as <- <- <- <-. auto.
Qed.

(** X6.  The battery level is never 0, the value that stands for an external
    power source: it lies between 1 and 255.  It is 254 exactly from 3000 mV
    on and 255 exactly up to 2300 mV; between these it runs from 1 to 253
    and never decreases when the voltage grows.  The call changes nothing
    but the global [BatteryVoltage]. *)
Theorem BoardGetBatteryLevel_levels (USE_ENCODER_defined : bool)
  (adc17 adc17' : Z) (s s1 s2 : State) (t1 t2 : list Event)
  (V level V' level' : Z) :
  BoardGetBatteryLevel USE_ENCODER_defined adc17 s
  = Returns (Some (V, level)) s1 t1 ->
  BoardGetBatteryLevel USE_ENCODER_defined adc17' s
  = Returns (Some (V', level')) s2 t2 ->
  s1 = s /\ t1 = [] /\
  1 <= level <= 255 /\
  (level = 254 <-> BATTERY_MAX_LEVEL <= V) /\
  (level = 255 <-> V <= BATTERY_SHUTDOWN_LEVEL) /\
  (BATTERY_SHUTDOWN_LEVEL < V < BATTERY_MAX_LEVEL -> 1 <= level <= 253) /\
  (BATTERY_SHUTDOWN_LEVEL < V <= V' -> level <= level').
Proof.
  intros H1 H2.
  apply BoardGetBatteryLevel_inv in H1 as (-> & -> & _ & HV & Hl).
  apply BoardGetBatteryLevel_inv in H2 as (_ & _ & _ & HV' & Hl').
  unfold BATTERY_MAX_LEVEL, BATTERY_SHUTDOWN_LEVEL.
  split; [reflexivity |]. split; [reflexivity |].
  assert (Hmid : 2400 < V < 3000 -> 1 <= 253 * (V - 2400) / 600 + 1 <= 253)
    by (intros; Z.div_mod_to_equations; lia).
  assert (Hmid' : 2400 < V' < 3000 ->
                  1 <= 253 * (V' - 2400) / 600 + 1 <= 253)
    by (intros; Z.div_mod_to_equations; lia).
  assert (Hmono : 2400 < V <= V' ->
                  253 * (V - 2400) / 600 <= 253 * (V' - 2400) / 600)
    by (intros; apply Z.div_le_mono; lia).
  destruct Hl as [[? ->] | [[? ->] | [[? ->] | [? ->]]]];
    destruct Hl' as [[? ->] | [[? ->] | [[? ->] | [? ->]]]];
    repeat split; intros; try lia.
Qed.

Lemma BoardBatteryMeasureVolage_in_range (USE_ENCODER_defined : bool)
  (adc17 : Z) :
  (if USE_ENCODER_defined then 20 else 77) <= uint16 adc17 ->
  BoardBatteryMeasureVolage USE_ENCODER_defined adc17
  = Some (ADC_VREF_BANDGAP * ADC_MAX_VALUE USE_ENCODER_defined
          / uint16 adc17).
Proof.
  intros Hth. unfold BoardBatteryMeasureVolage.
  pose proof (Z.mod_pos_bound adc17 65536 ltac:(lia)) as Hr.
  unfold uint16 in *. set (vref := adc17 mod 65536) in *.
  destruct (Z.eqb_spec vref 0) as [Hz | _];
    [destruct USE_ENCODER_defined; lia |].
  f_equal. destruct USE_ENCODER_defined;
    unfold ADC_VREF_BANDGAP, ADC_MAX_VALUE, uint32;
    cbn -[Z.div Z.modulo];
    apply Z.mod_small; split;
    try (apply Z.div_pos; lia);
    apply Z.div_lt_upper_bound; lia.
Qed.

(** X7.  Measurement and level together, for reference readings whose
    quotient fits 16 bits (from 77 on with the 12-bit full scale, from 20 on
    with the 10-bit one): [BoardGetBatteryVoltage] then reports the exact
    quotient, and the level is 254 exactly for readings up to 1670 (417 for
    10 bits) and 255 exactly for readings from 2179 (545) on. *)
Theorem BoardGetBatteryLevel_readings (USE_ENCODER_defined : bool)
  (adc17 : Z) (s : State) :
  (if USE_ENCODER_defined then 20 else 77) <= uint16 adc17 ->
  exists V level,
    BoardGetBatteryLevel USE_ENCODER_defined adc17 s
    = Returns (Some (V, level)) s [] /\
    BoardGetBatteryVoltage V
    = ADC_VREF_BANDGAP * ADC_MAX_VALUE USE_ENCODER_defined
      / uint16 adc17 /\
    (level = 254 <->
     uint16 adc17 <= (if USE_ENCODER_defined then 417 else 1670)) /\
    (level = 255 <->
     (if USE_ENCODER_defined then 545 else 2179) <= uint16 adc17).
Proof.
  intros Hth.
  pose proof (BoardBatteryMeasureVolage_in_range _ _ Hth) as Hm.
  destruct (BoardGetBatteryLevel_run USE_ENCODER_defined adc17 s)
    as [_ Hnz].
  destruct Hnz as (V & level & Hm' & Hrun & HV & Hl);
    [destruct USE_ENCODER_defined; lia |].
  rewrite Hm in Hm'. injection Hm' as HVeq.
  exists V, level. split; [exact Hrun |]. split; [symmetry; exact HVeq |].
  assert (Hmid : 2400 < V < 3000 -> 1 <= 253 * (V - 2400) / 600 + 1 <= 253)
    by (intros; Z.div_mod_to_equations; lia).
  set (vref := uint16 adc17) in *.
  assert (Hpos : 0 < vref) by (destruct USE_ENCODER_defined; lia).
  assert (Hhi : 3000 <= V <->
                vref <= (if USE_ENCODER_defined then 417 else 1670)).
  { subst V. destruct USE_ENCODER_defined;
      unfold ADC_VREF_BANDGAP, ADC_MAX_VALUE; cbn -[Z.div];
      (split; intros H;
       [ Z.div_mod_to_equations; nia
       | apply Z.div_le_lower_bound; lia ]). }
  assert (Hlo : V <= 2300 <->
                (if USE_ENCODER_defined then 545 else 2179) <= vref).
  { subst V. destruct USE_ENCODER_defined;
      unfold ADC_VREF_BANDGAP, ADC_MAX_VALUE; cbn -[Z.div];
      (split; intros H;
       [ Z.div_mod_to_equations; nia
       | apply Z.lt_succ_r, Z.div_lt_upper_bound; lia ]). }
  destruct Hl as [[? ->] | [[? ->] | [[? ->] | [? ->]]]];
    split; split; intros; try lia; try tauto;
    try (apply Hhi; lia); try (apply Hlo; lia).
  all: first [ apply Hhi in H0 | apply Hlo in H0 ]; lia.
Qed.

(** *** Critical sections to any depth *)

Lemma nested_S (n : nat) (body : M unit) (s : State) :
  nested (S n) body s =
  match nested n body (set_PRIMASK_bit true s) with
  | Returns _ s1 t1 =>
      Returns tt (set_PRIMASK_bit (PRIMASK s) s1)
        (E_get_PRIMASK (mask_of s) :: E_disable_irq :: t1
         ++ [E_set_PRIMASK (mask_of s)])
  | NoReturn s1 t1 =>
      NoReturn s1 (E_get_PRIMASK (mask_of s) :: E_disable_irq :: t1)
  end.
Proof.
  change (nested (S n) body)
    with (mask <- BoardCriticalSectionBegin ;;
          nested n body ;; BoardCriticalSectionEnd mask).
  rewrite (bind_Returns _ _ s (mask_of s) (set_PRIMASK_bit true s)
             [E_get_PRIMASK (mask_of s); E_disable_irq]) by reflexivity.
  destruct (nested n body (set_PRIMASK_bit true s)) as [[] s1 t1 | s1 t1]
    eqn:Hin.
  - rewrite (bind_Returns _ _ _ _ _ _ Hin).
    unfold mask_of. destruct (PRIMASK s); reflexivity.
  - rewrite (bind_NoReturn _ _ _ _ _ Hin). reflexivity.
Qed.

Lemma nested_run (body : M unit) (n : nat) :
  forall s,
    returns (nested (S n) body s) = returns (body (set_PRIMASK_bit true s)) /\
    final (nested (S n) body s)
    = (if returns (body (set_PRIMASK_bit true s))
       then set_PRIMASK_bit (PRIMASK s) (final (body (set_PRIMASK_bit true s)))
       else final (body (set_PRIMASK_bit true s))).
Proof.
  induction n as [| n IH]; intros s; rewrite nested_S.
  - cbn [nested]. destruct (body (set_PRIMASK_bit true s)) as [[] s1 t1 | s1 t1];
      split; reflexivity.
  - destruct (IH (set_PRIMASK_bit true s)) as [Hr Hf].
    change (set_PRIMASK_bit true (set_PRIMASK_bit true s))
      with (set_PRIMASK_bit true s) in Hr, Hf.
    change (PRIMASK (set_PRIMASK_bit true s)) with true in Hf.
    destruct (nested (S n) body (set_PRIMASK_bit true s))
      as [[] s1 t1 | s1 t1];
      cbn [returns final] in Hr, Hf |- *; rewrite <- Hr in Hf |- *;
      split; try reflexivity; rewrite Hf; reflexivity.
Qed.

(** X8.  Critical sections can be nested to any depth around a body that
    leaves the interrupt mask alone: the whole returns exactly when the body
    does, the body runs with interrupts masked, and on return the mask has
    the value it had before the outermost Begin while everything else is as
    the body left it.  When the body does not return, interrupts stay
    masked. *)
Theorem nested_critical_sections (body : M unit) (n : nat) (s : State) :
  (forall s0, PRIMASK (final (body s0)) = PRIMASK s0) ->
  (1 <= n)%nat ->
  returns (nested n body s) = returns (body (set_PRIMASK_bit true s)) /\
  final (nested n body s)
  = (if returns (body (set_PRIMASK_bit true s))
     then set_PRIMASK_bit (PRIMASK s) (final (body (set_PRIMASK_bit true s)))
     else final (body (set_PRIMASK_bit true s))) /\
  PRIMASK (final (nested n body s))
  = (if returns (nested n body s) then PRIMASK s else true).
Proof.
  intros Hbody Hn. destruct n as [| n]; [lia |].
  destruct (nested_run body n s) as [Hr Hf].
  split; [exact Hr |]. split; [exact Hf |].
  rewrite Hf, Hr.
  destruct (returns (body (set_PRIMASK_bit true s))); [reflexivity |].
  apply Hbody.
Qed.

(** *** Unused pins *)

(** X9.  [BoardUnusedIoInit] returns in the state it was called in.  The
    five settings of the debug unit all follow [USE_DEBUGGER]; the five JTAG
    pins are put in analog mode exactly in a build without the debugger; no
    pin is configured in any other mode. *)
Theorem BoardUnusedIoInit_debug_pins (s : State) :
  exists t,
    BoardUnusedIoInit s = Returns tt s t /\
    debug_settings t = repeat (USE_DEBUGGER cfg) 5 /\
    count is_JTAG_analog t = (if USE_DEBUGGER cfg then 0 else 5)%nat /\
    only_analog t = true.
Proof.
  wp_start BoardUnusedIoInit s. wp_run;
    (eexists; split; [reflexivity |]; repeat split).
Qed.

(** *** The resume sequence, wait by wait *)

(** X10.  [SystemClockReConfig] returns exactly when its four waits end.  It
    never asks a HAL routine for a status, and no run of it, complete or
    not, touches the lifecycle flags or the interrupt mask. *)
Theorem SystemClockReConfig_completes (s : State) :
  (returns (SystemClockReConfig s) = true <->
   forall i, (i < 4)%nat -> hw_polls hw (i + waits s) <> None) /\
  existsb is_HAL_Status (trace_of (SystemClockReConfig s)) = false /\
  calls (final (SystemClockReConfig s)) = calls s /\
  McuInitialized (final (SystemClockReConfig s)) = McuInitialized s /\
  SystemWakeupTimeCalibrated (final (SystemClockReConfig s))
  = SystemWakeupTimeCalibrated s /\
  PRIMASK (final (SystemClockReConfig s)) = PRIMASK s.
Proof.
  wp_start SystemClockReConfig s. wp_run;
    (split; [| repeat split]);
    (split;
     [ intros Hret; try discriminate Hret;
       intros i Hi;
       destruct i as [| [| [| [| i]]]]; cbn [Nat.add]; try congruence; lia
     | intros Hall;
       try reflexivity;
       pose proof (Hall 0%nat ltac:(lia)) as H0;
       pose proof (Hall 1%nat ltac:(lia)) as H1;
       pose proof (Hall 2%nat ltac:(lia)) as H2;
       pose proof (Hall 3%nat ltac:(lia)) as H3;
       cbn [Nat.add] in H0, H1, H2, H3; congruence ]).
Qed.

(** *** Stop and wake cycles *)

Lemma up_after_app (init deinit : Event -> bool) (t1 t2 : list Event) :
  forall b,
    up_after init deinit b (t1 ++ t2)
    = up_after init deinit (up_after init deinit b t1) t2.
Proof.
  induction t1 as [| e t1 IH]; intros b; [reflexivity |]. cbn. apply IH.
Qed.

Lemma stop_wake_cycle_once (s : State) :
  hw_responsive ->
  McuInitialized s = true ->
  exists s' t,
    stop_wake_cycle s = Returns tt s' t /\
    McuInitialized s' = true /\
    SystemWakeupTimeCalibrated s' = SystemWakeupTimeCalibrated s /\
    PRIMASK s' = PRIMASK s /\
    calls s' = calls s /\
    clock_running (clock s') = true /\
    existsb cold_only t = false /\
    count is_halt t = 1%nat /\
    count is_EncoderInit t = (if USE_ENCODER_is_1 cfg then 1 else 0)%nat /\
    (forall b, up_after is_AdcInit is_AdcDeInit b t = true) /\
    (forall b, up_after is_SpiInit is_SpiDeInit b t = true) /\
    (forall b, up_after is_SX1272IoInit is_SX1272IoDeInit b t = true).
Proof.
  intros Hresp Hinit. wp_start stop_wake_cycle s.
  wp_run; try (exfalso; eapply Hresp; eassumption).
  all: do 2 eexists; split; [reflexivity |];
    repeat split; try assumption; try reflexivity;
    cbn; destruct (PRIMASK s); reflexivity.
Qed.

(** X11.  On hardware where every wait ends, any number of Stop entries each
    followed by the Stop exit returns, from any state in which the board is
    initialised: the processor was halted once per cycle, no step of the
    cold boot or of the calibration ran again, no HAL status was asked for,
    the interrupt mask and the two lifecycle flags are as before.  In a
    build with the encoder, the encoder was initialised once per cycle (the
    teardown has no counterpart for it).  After at least one cycle the clock
    runs from the PLL and ADC, radio SPI bus and radio I/O are initialised,
    whatever they were before. *)
Theorem stop_wake_cycles (N : nat) (s : State) :
  hw_responsive ->
  McuInitialized s = true ->
  exists s' t,
    iterate N stop_wake_cycle s = Returns tt s' t /\
    McuInitialized s' = true /\
    SystemWakeupTimeCalibrated s' = SystemWakeupTimeCalibrated s /\
    PRIMASK s' = PRIMASK s /\
    calls s' = calls s /\
    existsb cold_only t = false /\
    count is_halt t = N /\
    count is_EncoderInit t = (if USE_ENCODER_is_1 cfg then N else 0)%nat /\
    ((1 <= N)%nat ->
     clock_running (clock s') = true /\
     forall b, peripherals_up b t = true).
Proof.
  intros Hresp. revert s. induction N as [| N IH]; intros s Hinit.
  - exists s, []. repeat split; try assumption; try lia.
    destruct (USE_ENCODER_is_1 cfg); reflexivity.
  - destruct (stop_wake_cycle_once s Hresp Hinit)
      as (s1 & t1 & Hrun & Hi1 & Hc1 & Hp1 & Hcalls1 & Hclk1 & Hcold1
          & Hhalt1 & Henc1 & Hadc1 & Hspi1 & Hio1).
    destruct (IH s1 Hi1)
      as (s' & t & Hit & Hi & Hc & Hp & Hcalls & Hcold & Hhalt & Henc
          & Hup).
    exists s', (t1 ++ t).
    split; [rewrite iterate_S, Hrun, Hit; reflexivity |].
    split; [exact Hi |]. split; [congruence |]. split; [congruence |].
    split; [congruence |].
    split; [rewrite existsb_app, Hcold1, Hcold; reflexivity |].
    split; [rewrite count_app, Hhalt1, Hhalt; reflexivity |].
    split; [rewrite count_app, Henc1, Henc;
            destruct (USE_ENCODER_is_1 cfg); reflexivity |].
    intros _. destruct N as [| N].
    + cbn in Hit. injection Hit as <- <-. rewrite app_nil_r.
      split; [exact Hclk1 |]. intros b. unfold peripherals_up.
      rewrite Hadc1, Hspi1, Hio1. reflexivity.
    + destruct (Hup ltac:(lia)) as [Hclk Hall].
      split; [exact Hclk |]. intros b. unfold peripherals_up.
      rewrite !up_after_app.
      pose proof (Hall (up_after is_AdcInit is_AdcDeInit b t1)) as Ha.
      pose proof (Hall (up_after is_SpiInit is_SpiDeInit b t1)) as Hs.
      pose proof (Hall (up_after is_SX1272IoInit is_SX1272IoDeInit b t1))
        as Hx.
      unfold peripherals_up in Ha, Hs, Hx.
      apply andb_true_iff in Ha as [Ha _]. apply andb_true_iff in Ha as [Ha _].
      apply andb_true_iff in Hs as [Hs _]. apply andb_true_iff in Hs as [_ Hs].
      apply andb_true_iff in Hx as [_ Hx].
      rewrite Ha, Hs, Hx. reflexivity.
Qed.


(** *** The order of a boot *)

(** X13.  In every run of [BoardInitMcu], complete or not, from any state:
    the UART and the RTC are initialised only after the system tick was
    configured, the calibration timer only after the RTC, the radio I/O only
    after its SPI bus, and the watchdog only after the radio I/O.  The
    watchdog is started exactly in the runs that return, once, as the last
    thing done. *)
Theorem BoardInitMcu_boot_order (s : State) :
  boot_order (trace_of (BoardInitMcu s)) = true /\
  count is_WdtInit (trace_of (BoardInitMcu s))
  = (if returns (BoardInitMcu s) then 1 else 0)%nat /\
  (returns (BoardInitMcu s) = true ->
   last (trace_of (BoardInitMcu s)) E_HAL_Init = E_WdtInit).
Proof.
  wp_begin BoardInitMcu s. wp_run; wp_leaf; repeat split; discriminate.
Qed.

(** *** Outcomes of a cold boot *)

(** X14.  On hardware where every wait ends, a cold boot returns exactly
    when, in a build with [USE_FULL_ASSERT], the three HAL routines of the
    clock configuration all report [HAL_OK]; in a build without it the boot
    returns whatever they report.  A cold boot that returns has asked for
    exactly three statuses and has set [McuInitialized], so the next call is
    the resume path: the clock configuration with its status checks is not
    run a second time. *)
Theorem BoardInitMcu_cold_completes (s : State) :
  hw_responsive ->
  McuInitialized s = false ->
  (returns (BoardInitMcu s) = true <->
   (USE_FULL_ASSERT cfg = true ->
    forall j, (j < 3)%nat -> hw_status hw (j + calls s) = HAL_OK)) /\
  (returns (BoardInitMcu s) = true ->
   calls (final (BoardInitMcu s)) = (3 + calls s)%nat /\
   McuInitialized (final (BoardInitMcu s)) = true /\
   BoardInitMcu (final (BoardInitMcu s))
   = resume_path (final (BoardInitMcu s)) /\
   existsb cold_only
     (trace_of (BoardInitMcu (final (BoardInitMcu s)))) = false).
Proof.
  intros Hresp Hinit. split.
  - wp_begin BoardInitMcu s.
    wp_run; wp_leaf; try (exfalso; eapply Hresp; eassumption);
      (split;
       [ intros Hret; try discriminate Hret;
         intros Hfa; try congruence;
         intros j Hj; destruct j as [| [| [| j]]]; cbn [Nat.add];
         first [ lia | apply HAL_Status_eqb_eq; assumption ]
       | intros Hall; try reflexivity;
         pose proof (Hall ltac:(first [assumption | reflexivity])
                       0%nat ltac:(lia)) as H0;
         pose proof (Hall ltac:(first [assumption | reflexivity])
                       1%nat ltac:(lia)) as H1;
         pose proof (Hall ltac:(first [assumption | reflexivity])
                       2%nat ltac:(lia)) as H2;
         cbn [Nat.add] in H0, H1, H2;
         repeat match goal with
           | H : HAL_Status_eqb (hw_status hw ?n) HAL_OK = false |- _ =>
               first [ rewrite H0 in H | rewrite H1 in H | rewrite H2 in H ];
               discriminate H
           end ]).
  - intros Hret.
    destruct (BoardInitMcu s) as [[] s1 t1 | s1 t1] eqn:Hrun;
      [| discriminate Hret].
    cbn [final].
    destruct (BoardInitMcu_cold_returns _ _ _ Hinit Hrun) as (Hi & _).
    split.
    + wp_returns BoardInitMcu s Hrun; reflexivity.
    + split; [exact Hi |].
      rewrite (BoardInitMcu_warm s1 Hi).
      split; [reflexivity |]. apply resume_path_facts. exact Hi.
Qed.

(** X15.  A cold boot that does not return has not started the watchdog and
    has left the calibration flag as it was.  It stopped in one of two
    places.  Either in the clock configuration: [McuInitialized] is still
    clear and nothing that follows the clock configuration was done, no
    system tick, UART, RTC, ADC or radio.  Or in the wait of the
    calibration: [McuInitialized] is already set, ADC, radio SPI bus and
    radio I/O are initialised, and starting the calibration timer was the
    last thing done. *)
Theorem BoardInitMcu_cold_hang (s : State) :
  McuInitialized s = false ->
  returns (BoardInitMcu s) = false ->
  existsb is_WdtInit (trace_of (BoardInitMcu s)) = false /\
  SystemWakeupTimeCalibrated (final (BoardInitMcu s))
  = SystemWakeupTimeCalibrated s /\
  ((McuInitialized (final (BoardInitMcu s)) = false /\
    existsb after_clock_config (trace_of (BoardInitMcu s)) = false) \/
   (McuInitialized (final (BoardInitMcu s)) = true /\
    SystemWakeupTimeCalibrated s = false /\
    peripherals_up false (trace_of (BoardInitMcu s)) = true /\
    last (trace_of (BoardInitMcu s)) E_HAL_Init = E_TimerStart)).
Proof.
  intros Hinit. wp_begin BoardInitMcu s. wp_run; wp_leaf;
    intros Hret; try discriminate Hret;
    (split; [reflexivity |]; split; [first [reflexivity | assumption] |]);
    first
      [ left; split; [assumption |]; reflexivity
      | right; split; [reflexivity |];
        split; [first [reflexivity | assumption] |];
        split; reflexivity ].
Qed.
End Board.

(** ** Concrete runs *)

Lemma hw_good_responsive : hw_responsive hw_good.
Proof. intros n H. discriminate H. Qed.

Lemma hw_good_all_ok : hw_all_ok hw_good.
Proof. intros n. reflexivity. Qed.

(** C1, witness: three calls from the reset state on responsive hardware. *)
Lemma single_cold_boot_witness :
  McuInitialized (power_on false) = false /\
  SystemWakeupTimeCalibrated (power_on false) = false /\
  (1 <= 3)%nat /\
  returns (iterate 3 (BoardInitMcu cfg_full_assert hw_good) (power_on false))
  = true /\
  (forall st,
     count (step_marker st)
       (trace_of
          (iterate 3 (BoardInitMcu cfg_full_assert hw_good) (power_on false)))
     = 1%nat) /\
  McuInitialized
    (final (iterate 3 (BoardInitMcu cfg_full_assert hw_good) (power_on false)))
  = true.
Proof.
  destruct (single_cold_boot cfg_full_assert hw_good 3 (power_on false)
              eq_refl eq_refl (le_S _ _ (le_S _ _ (le_n 1))))
    as (_ & _ & Hret & Htot & _).
  pose proof (Htot hw_good_responsive hw_good_all_ok) as Hr.
  destruct (Hret Hr) as (Hone & Hinit & _).
  repeat split; try assumption. repeat constructor.
Defined.

(** C2, witness: the cold sequence on responsive hardware returns, having
    enabled the PLL and switched to it. *)
Lemma clock_ordering_witness :
  returns (SystemClockConfig cfg_full_assert hw_good (power_on false)) = true /\
  existsb is_PLL_ENABLE
    (trace_of (SystemClockConfig cfg_full_assert hw_good (power_on false)))
  = true /\
  clock_order
    (trace_of (SystemClockConfig cfg_full_assert hw_good (power_on false)))
  = true.
Proof.
  destruct (clock_ordering cfg_full_assert hw_good (power_on false))
    as ((Hcold & _) & Hdone & _).
  split; [reflexivity |].
  split; [apply Hdone; reflexivity | exact Hcold].
Defined.

(** C3, counterexample.  In the run of [LpmEnterStopMode] on responsive
    hardware the power-control calls are not after the critical section. *)
Lemma LpmEnterStopMode_not_as_specified :
  ~ stop_entry_as_specified (trace_of (LpmEnterStopMode hw_good warm_state)).
Proof.
  intros (inside & after_cs & Hcs & _ & Hpc & _).
  vm_compute in Hcs. inversion Hcs; subst.
  specialize (Hpc E_HAL_PWR_DisablePVD (or_introl eq_refl)).
  cbn in Hpc. destruct Hpc as [H | [H | []]]; discriminate H.
Qed.

(** C4, witness: calibration from the reset state, then a second call. *)
Lemma calibration_guard_witness :
  SystemWakeupTimeCalibrated (power_on false) = false /\
  CalibrateSystemWakeupTime hw_good (power_on false)
  = Returns tt (set_SystemWakeupTimeCalibrated true (next_wait (power_on false)))
      (calibration_trace 0) /\
  CalibrateSystemWakeupTime hw_good
    (set_SystemWakeupTimeCalibrated true (next_wait (power_on false)))
  = Returns tt
      (set_SystemWakeupTimeCalibrated true (next_wait (power_on false))) [].
Proof.
  split; [reflexivity |]. split; [reflexivity |].
  apply (calibration_guard hw_good (power_on false) _ (calibration_trace 0)
           eq_refl eq_refl).
Defined.

(** C6, witness: three resume sequences in a row. *)
Lemma resume_sequence_idempotent_witness :
  hw_responsive hw_good /\ (1 <= 3)%nat /\
  exists s' t,
    iterate 3 (SystemClockReConfig hw_good) warm_state = Returns tt s' t /\
    clock_running (clock s') = true /\
    SWS (clock s') = CLK_PLL.
Proof.
  split; [exact hw_good_responsive |].
  split; [repeat constructor |].
  destruct (resume_sequence_idempotent hw_good 3 warm_state
              hw_good_responsive (le_S _ _ (le_S _ _ (le_n 1))) 3
              (conj (le_S _ _ (le_S _ _ (le_n 1))) (le_n 3)))
    as (s' & t & Hrun & Hclk & Hsws & _).
  exists s', t. auto.
Defined.

(** C7, counterexample.  Without [USE_FULL_ASSERT], [HAL_RCC_OscConfig]
    reports [HAL_ERROR] and [SystemClockConfig] goes on and returns. *)
Lemma SystemClockConfig_goes_on_without_full_assert :
  ~ traps_on_failure cfg_plain hw_osc_error.
Proof.
  intros H.
  specialize (H (power_on false) Fn_HAL_RCC_OscConfig HAL_ERROR).
  assert (Hret : returns (SystemClockConfig cfg_plain hw_osc_error
                            (power_on false)) = false).
  { apply H; [| discriminate].
    vm_compute. repeat (first [left; reflexivity | right]). }
  vm_compute in Hret. discriminate Hret.
Qed.

(** C7, witness: the same failure in a build with [USE_FULL_ASSERT]. *)
Lemma cold_clock_failure_traps_witness :
  USE_FULL_ASSERT cfg_full_assert = true /\
  returns (SystemClockConfig cfg_full_assert hw_osc_error (power_on false))
  = false /\
  last_two
    (trace_of (SystemClockConfig cfg_full_assert hw_osc_error (power_on false)))
  = Some (E_HAL_Status Fn_HAL_RCC_OscConfig HAL_ERROR,
          E_printf_wrong_parameters 440).
Proof.
  split; [reflexivity |].
  assert (Hin : In (E_HAL_Status Fn_HAL_RCC_OscConfig HAL_ERROR)
                  (trace_of (SystemClockConfig cfg_full_assert hw_osc_error
                               (power_on false)))).
  { vm_compute. repeat (first [left; reflexivity | right]). }
  assert (Hne : HAL_ERROR <> HAL_OK) by discriminate.
  destruct (cold_clock_failure_traps cfg_full_assert hw_osc_error
              (power_on false) Fn_HAL_RCC_OscConfig HAL_ERROR
              eq_refl Hin Hne) as (Hret & _).
  split; [exact Hret | reflexivity].
Defined.

(** C8, witness: a cold boot and a resume, both with ADC and radio set up. *)
Lemma adc_and_radio_rebuilt_witness :
  (BoardInitMcu cfg_plain hw_good (power_on false)
   = Returns tt
       (final (BoardInitMcu cfg_plain hw_good (power_on false)))
       (trace_of (BoardInitMcu cfg_plain hw_good (power_on false))) /\
   exists pre post,
     trace_of (BoardInitMcu cfg_plain hw_good (power_on false))
     = pre ++ adc_and_radio_init ++ post) /\
  (BoardInitMcu cfg_plain hw_good warm_state
   = Returns tt
       (final (BoardInitMcu cfg_plain hw_good warm_state))
       (trace_of (BoardInitMcu cfg_plain hw_good warm_state)) /\
   exists pre post,
     trace_of (BoardInitMcu cfg_plain hw_good warm_state)
     = pre ++ adc_and_radio_init ++ post).
Proof.
  split; (split; [vm_compute; reflexivity |]).
  - eapply (adc_and_radio_rebuilt cfg_plain hw_good (power_on false)).
    vm_compute; reflexivity.
  - eapply (adc_and_radio_rebuilt cfg_plain hw_good warm_state).
    vm_compute; reflexivity.
Defined.

(** C9, witness: Stop exit in a state reached after a first boot. *)
Lemma LpmExitStopMode_resumes_witness :
  McuInitialized warm_state = true /\
  BoardInitMcu cfg_plain hw_good warm_state
  = resume_path cfg_plain hw_good warm_state /\
  existsb cold_only (trace_of (LpmExitStopMode cfg_plain hw_good warm_state))
  = false.
Proof.
  destruct (LpmExitStopMode_resumes cfg_plain hw_good warm_state eq_refl)
    as (Hsame & _ & Hcold & _).
  split; [reflexivity |]. split; assumption.
Defined.

(** C10, witness: a cold boot from the reset state. *)
Lemma battery_power_only_witness :
  McuInitialized (power_on false) = false /\
  BoardInitMcu cfg_full_assert hw_good (power_on false)
  = Returns tt
      (final (BoardInitMcu cfg_full_assert hw_good (power_on false)))
      (trace_of (BoardInitMcu cfg_full_assert hw_good (power_on false))) /\
  existsb is_USB_DM_analog
    (trace_of (BoardInitMcu cfg_full_assert hw_good (power_on false))) = true /\
  existsb (step_marker Step_LpmSetOffMode)
    (trace_of (BoardInitMcu cfg_full_assert hw_good (power_on false))) = true /\
  existsb (step_marker Step_TimerStart)
    (trace_of (BoardInitMcu cfg_full_assert hw_good (power_on false))) = true.
Proof.
  split; [reflexivity |].
  assert (Hrun :
    BoardInitMcu cfg_full_assert hw_good (power_on false)
    = Returns tt
        (final (BoardInitMcu cfg_full_assert hw_good (power_on false)))
        (trace_of (BoardInitMcu cfg_full_assert hw_good (power_on false))))
    by (vm_compute; reflexivity).
  split; [exact Hrun |].
  destruct (battery_power_only cfg_full_assert hw_good (power_on false) _ _
              eq_refl Hrun)
    as (_ & _ & Hdm & _ & Hoff & _ & Hcal).
  split; [exact Hdm |]. split; [exact Hoff |].
  apply Hcal. reflexivity.
Defined.

(** ** Concrete instances of the further properties *)

(** Seed of three sample ID words, and of the same words exchanged. *)
Lemma BoardGetRandomSeed_words_witness :
  is_word (BoardGetRandomSeed 305419896 2271560481 4294967295) /\
  BoardGetRandomSeed 2271560481 305419896 4294967295
  = BoardGetRandomSeed 305419896 2271560481 4294967295.
Proof.
  destruct (BoardGetRandomSeed_words 305419896 2271560481 4294967295)
    as (Hw & _ & _ & _ & Hswap & _);
    [unfold is_word; lia | unfold is_word; lia | unfold is_word; lia |].
  split; assumption.
Defined.

(** A nine-byte buffer; the sum of the words at [ID1] and [ID3] wraps. *)
Lemma BoardGetUniqueId_round_trip_witness :
  exists b0 b1 b2 b3 b4 b5 b6 b7,
    BoardGetUniqueId 4294967295 19088743 2 [0; 0; 0; 0; 0; 0; 0; 0; 170]
    = Some ([b0; b1; b2; b3; b4; b5; b6; b7] ++ [170]) /\
    le32 b0 b1 b2 b3 = 19088743 /\
    le32 b4 b5 b6 b7 = uint32 (4294967295 + 2) /\
    Forall (fun b => 0 <= b < 256) [b0; b1; b2; b3; b4; b5; b6; b7].
Proof.
  apply (BoardGetUniqueId_round_trip 4294967295 19088743 2
           [0; 0; 0; 0; 0; 0; 0; 0; 170]);
    first [unfold is_word; lia | cbn; lia].
Defined.

(** Two devices whose words at [ID1] and [ID3] are exchanged. *)
Lemma BoardGetUniqueId_same_id_witness :
  BoardGetUniqueId 2 7 1 [0; 0; 0; 0; 0; 0; 0; 0]
  = BoardGetUniqueId 1 7 2 [0; 0; 0; 0; 0; 0; 0; 0].
Proof.
  destruct (BoardGetUniqueId_same_id 1 7 2 1 7 2 [0; 0; 0; 0; 0; 0; 0; 0])
    as [_ Hswap];
    [unfold is_word; lia | unfold is_word; lia | cbn; lia |].
  exact Hswap.
Defined.

(** Two readings in the build without the encoder. *)
Lemma BoardGetPotiLevel_percentage_witness :
  USE_ENCODER_is_1 cfg_plain = false /\
  BoardGetPotiLevel cfg_plain 1 450 <= BoardGetPotiLevel cfg_plain 1 899 /\
  BoardGetPotiLevel cfg_plain 1 899 <> 99.
Proof.
  destruct (BoardGetPotiLevel_percentage cfg_plain 1 450 899 eq_refl)
    as (_ & _ & _ & _ & Hmono).
  destruct (BoardGetPotiLevel_percentage cfg_plain 1 899 899 eq_refl)
    as (_ & Hne & _).
  split; [reflexivity |]. split; [| exact Hne].
  apply Hmono. unfold uint16. cbn. lia.
Defined.

(** Two reference readings with the 12-bit full scale: 2784 and 2948 mV. *)
Lemma BoardGetBatteryLevel_levels_witness :
  BoardGetBatteryLevel false 1800 warm_state
  = Returns (Some (2784, 162)) warm_state [] /\
  BoardGetBatteryLevel false 1700 warm_state
  = Returns (Some (2948, 232)) warm_state [] /\
  (162 = 255 <-> 2784 <= BATTERY_SHUTDOWN_LEVEL).
Proof.
  assert (H1 : BoardGetBatteryLevel false 1800 warm_state
               = Returns (Some (2784, 162)) warm_state [])
    by (vm_compute; reflexivity).
  assert (H2 : BoardGetBatteryLevel false 1700 warm_state
               = Returns (Some (2948, 232)) warm_state [])
    by (vm_compute; reflexivity).
  destruct (BoardGetBatteryLevel_levels false 1800 1700 warm_state
              _ _ _ _ _ _ _ _ H1 H2)
    as (_ & _ & _ & _ & Hlow & _).
  split; [exact H1 |]. split; [exact H2 |]. exact Hlow.
Defined.

(** A reference reading of 1500 with the 12-bit full scale. *)
Lemma BoardGetBatteryLevel_readings_witness :
  exists V level,
    BoardGetBatteryLevel false 1500 warm_state
    = Returns (Some (V, level)) warm_state [] /\
    BoardGetBatteryVoltage V
    = ADC_VREF_BANDGAP * ADC_MAX_VALUE false / uint16 1500 /\
    (level = 254 <-> uint16 1500 <= 1670) /\
    (level = 255 <-> 2179 <= uint16 1500).
Proof.
  apply (BoardGetBatteryLevel_readings false 1500 warm_state).
  unfold uint16. cbn. lia.
Defined.

(** Two critical sections around the teardown, interrupts enabled before. *)
Lemma nested_critical_sections_witness :
  returns (nested 2 BoardDeInitMcu (power_on false)) = true /\
  PRIMASK (final (nested 2 BoardDeInitMcu (power_on false))) = false.
Proof.
  destruct (nested_critical_sections BoardDeInitMcu 2 (power_on false))
    as (Hr & _ & Hp); [intros s0; reflexivity | lia |].
  rewrite Hp, Hr. split; reflexivity.
Defined.

(** Two cycles on the sample hardware. *)
Lemma stop_wake_cycles_witness :
  exists s' t,
    iterate 2 (stop_wake_cycle cfg_plain hw_good) warm_state
    = Returns tt s' t /\
    McuInitialized s' = true /\
    SystemWakeupTimeCalibrated s' = SystemWakeupTimeCalibrated warm_state /\
    PRIMASK s' = PRIMASK warm_state /\
    calls s' = calls warm_state /\
    existsb cold_only t = false /\
    count is_halt t = 2%nat /\
    count is_EncoderInit t
    = (if USE_ENCODER_is_1 cfg_plain then 2 else 0)%nat /\
    ((1 <= 2)%nat ->
     clock_running (clock s') = true /\
     forall b, peripherals_up b t = true).
Proof.
  apply (stop_wake_cycles cfg_plain hw_good 2 warm_state
           hw_good_responsive eq_refl).
Defined.


(** A build without [USE_FULL_ASSERT] on hardware whose oscillator
    configuration reports an error: the cold boot returns. *)
Lemma BoardInitMcu_cold_completes_witness :
  McuInitialized (power_on false) = false /\
  hw_status hw_osc_error (calls (power_on false)) = HAL_ERROR /\
  returns (BoardInitMcu cfg_plain hw_osc_error (power_on false)) = true.
Proof.
  split; [reflexivity |]. split; [reflexivity |].
  destruct (BoardInitMcu_cold_completes cfg_plain hw_osc_error
              (power_on false)) as [[_ Hback] _];
    [intros n; cbn; discriminate | reflexivity |].
  apply Hback. intros Hfa. cbn in Hfa. discriminate Hfa.
Defined.

(** The same hardware in a build with [USE_FULL_ASSERT]: the cold boot
    stops in the clock configuration. *)
Lemma BoardInitMcu_cold_hang_witness :
  returns (BoardInitMcu cfg_full_assert hw_osc_error (power_on false))
  = false /\
  existsb after_clock_config
    (trace_of (BoardInitMcu cfg_full_assert hw_osc_error (power_on false)))
  = false.
Proof.
  assert (Hret :
    returns (BoardInitMcu cfg_full_assert hw_osc_error (power_on false))
    = false) by (vm_compute; reflexivity).
  split; [exact Hret |].
  destruct (BoardInitMcu_cold_hang cfg_full_assert hw_osc_error
              (power_on false) eq_refl Hret)
    as (_ & _ & [(_ & H) | (Hi & _)]);
    [exact H | vm_compute in Hi; discriminate Hi].
Defined.

(** ** Sample traces, to compare with board.c line by line *)

Example LpmEnterStopMode_run :
  LpmEnterStopMode hw_good warm_state
  = Returns tt
      {| McuInitialized := true; SystemWakeupTimeCalibrated := true;
         PRIMASK := false; clock := clock_default; waits := 8; calls := 3 |}
      [ E_get_PRIMASK 0; E_disable_irq;
        E_AdcDeInit; E_SpiDeInit; E_SX1272IoDeInit;
        E_GpioInit ioPin OSC_HSE_IN PIN_ANALOGIC PIN_PUSH_PULL PIN_NO_PULL 1;
        E_GpioInit ioPin OSC_HSE_OUT PIN_ANALOGIC PIN_PUSH_PULL PIN_NO_PULL 1;
        E_GpioInit ioPin OSC_LSE_IN PIN_INPUT PIN_PUSH_PULL PIN_PULL_DOWN 1;
        E_GpioInit ioPin OSC_LSE_OUT PIN_INPUT PIN_PUSH_PULL PIN_PULL_DOWN 1;
        E_HAL_PWR_DisablePVD; E_SET_BIT_PWR_CR_CWUF;
        E_HAL_PWREx_EnableUltraLowPower; E_HAL_PWREx_EnableFastWakeUp;
        E_set_PRIMASK 0;
        E_HAL_PWR_EnterSTOPMode PWR_LOWPOWERREGULATOR_ON ENTRY_WFI;
        E_Observed WakeupEvent 1 ].
Proof. vm_compute. reflexivity. Qed.

Example LpmExitStopMode_run :
  trace_of (LpmExitStopMode cfg_plain hw_good warm_state)
  = [ E_get_PRIMASK 0; E_disable_irq;
      E_RCC_PWR_CLK_ENABLE;
      E_PWR_VOLTAGESCALING_CONFIG PWR_REGULATOR_VOLTAGE_SCALE1;
      E_Observed PWR_FLAG_VOS_reset 1;
      E_RCC_HSE_CONFIG RCC_HSE_ON; E_Observed RCC_FLAG_HSERDY 2;
      E_RCC_PLL_CONFIG RCC_PLLSOURCE_HSE RCC_PLL_MUL6 RCC_PLL_DIV3;
      E_RCC_PLL_ENABLE; E_Observed RCC_FLAG_PLLRDY 0;
      E_RCC_SYSCLK_CONFIG CLK_PLL; E_Observed (SYSCLK_SOURCE_is CLK_PLL) 1;
      E_AdcInit POTI; E_SpiInit RADIO_MOSI RADIO_MISO RADIO_SCLK NC;
      E_SX1272IoInit; E_WdtInit;
      E_set_PRIMASK 0 ].
Proof. vm_compute. reflexivity. Qed.

Example SystemClockConfig_error_with_full_assert :
  trace_of (SystemClockConfig cfg_full_assert hw_osc_error (power_on false))
  = [ E_RCC_PWR_CLK_ENABLE;
      E_PWR_VOLTAGESCALING_CONFIG PWR_REGULATOR_VOLTAGE_SCALE1;
      E_RCC_HSE_CONFIG RCC_HSE_ON; E_Observed RCC_FLAG_HSERDY 0;
      E_RCC_LSE_CONFIG RCC_LSE_ON; E_Observed RCC_FLAG_LSERDY 0;
      E_RCC_PLL_CONFIG RCC_PLLSOURCE_HSE RCC_PLL_MUL6 RCC_PLL_DIV3;
      E_RCC_PLL_ENABLE; E_Observed RCC_FLAG_PLLRDY 0;
      E_HAL_Status Fn_HAL_RCC_OscConfig HAL_ERROR;
      E_printf_wrong_parameters 440 ].
Proof. vm_compute. reflexivity. Qed.

Example SystemClockConfig_error_without_full_assert :
  SystemClockConfig cfg_plain hw_osc_error (power_on false)
  = Returns tt
      {| McuInitialized := false; SystemWakeupTimeCalibrated := false;
         PRIMASK := false;
         clock := {| HSEON := true; HSERDY := true; PLLON := true;
                     PLLRDY := true; SW := CLK_PLL; SWS := CLK_PLL |};
         waits := 4; calls := 3 |}
      [ E_RCC_PWR_CLK_ENABLE;
        E_PWR_VOLTAGESCALING_CONFIG PWR_REGULATOR_VOLTAGE_SCALE1;
        E_RCC_HSE_CONFIG RCC_HSE_ON; E_Observed RCC_FLAG_HSERDY 0;
        E_RCC_LSE_CONFIG RCC_LSE_ON; E_Observed RCC_FLAG_LSERDY 0;
        E_RCC_PLL_CONFIG RCC_PLLSOURCE_HSE RCC_PLL_MUL6 RCC_PLL_DIV3;
        E_RCC_PLL_ENABLE; E_Observed RCC_FLAG_PLLRDY 0;
        E_HAL_Status Fn_HAL_RCC_OscConfig HAL_ERROR;
        E_RCC_SYSCLK_CONFIG CLK_PLL; E_Observed (SYSCLK_SOURCE_is CLK_PLL) 0;
        E_RCC_BusDividers;
        E_HAL_Status Fn_HAL_RCC_ClockConfig HAL_OK;
        E_RCC_RTC_CONFIG_LSE;
        E_HAL_Status Fn_HAL_RCCEx_PeriphCLKConfig HAL_OK;
        E_HAL_SYSTICK_Config 32000; E_HAL_SYSTICK_CLKSourceConfig_HCLK;
        E_HAL_NVIC_SetPriority_SysTick ].
Proof. vm_compute. reflexivity. Qed.

(** The external oscillator never starts: the resume sequence stays in its
    second wait and the PLL is never enabled. *)
Example SystemClockReConfig_dead_oscillator :
  SystemClockReConfig hw_dead_hse (power_on false)
  = NoReturn
      {| McuInitialized := false; SystemWakeupTimeCalibrated := false;
         PRIMASK := false;
         clock := {| HSEON := true; HSERDY := false; PLLON := false;
                     PLLRDY := false; SW := CLK_MSI; SWS := CLK_MSI |};
         waits := 2; calls := 0 |}
      [ E_RCC_PWR_CLK_ENABLE;
        E_PWR_VOLTAGESCALING_CONFIG PWR_REGULATOR_VOLTAGE_SCALE1;
        E_Observed PWR_FLAG_VOS_reset 0;
        E_RCC_HSE_CONFIG RCC_HSE_ON ].
Proof. vm_compute. reflexivity. Qed.
